(** * Verifiable-credential command controller: proof options, signing, presentations

    A shallow embedding of [pkg/controller/command/verifiable/command.go]
    (verification-method resolution, KMS signer construction, linked-data
    proof attachment, presentation generation) together with a model of the
    parts of [pkg/doc/verifiable] and [pkg/doc/did] that the controller and
    the package examples rely on. *)

From Stdlib Require Import String Ascii List Bool ZArith NArith Lia.
From Stdlib Require Import Strings.Byte.
Import ListNotations.
Local Open Scope string_scope.
Local Open Scope list_scope.
#[local] Set Warnings "-register-all".

(** ** Go values shared by every package *)

(** [[]byte]. *)
Definition bytes : Type := list byte.

(** [time.Time] at the resolution the proofs of the examples carry it:
    seconds since the Unix epoch. *)
Definition Time : Type := Z.

(** Go's [error] values.  [fmt.Errorf] calls keep their format string and
    their operands; [%w] keeps the wrapped cause. *)
Inductive error : Type :=
| errors_New (msg : string)
| Errorf_s (format : string) (arg : string)
| Errorf_strs (format : string) (args : list string)
| Errorf_w (format : string) (cause : error).

(** The result of a Go function that returns [(T, error)]. *)
Inductive result (A : Type) : Type :=
| Ok (a : A)
| Err (e : error).
Arguments Ok {A} a.
Arguments Err {A} e.

(** A call that may panic instead of returning. *)
Inductive run (A : Type) : Type :=
| Returns (a : A)
| Panics (msg : string).
Arguments Returns {A} a.
Arguments Panics {A} msg.

Definition bind {A B : Type} (r : result A) (k : A -> result B) : result B :=
  match r with
  | Ok a => k a
  | Err e => Err e
  end.

Notation "x <- r ;; k" := (bind r (fun x => k))
  (at level 61, r at next level, right associativity).

Definition wrap {A : Type} (format : string) (r : result A) : result A :=
  match r with
  | Ok a => Ok a
  | Err e => Err (Errorf_w format e)
  end.

(** ** Package [strings] *)
Module strings.

(** [strings.HasPrefix(s, prefix)]. *)
Definition HasPrefix (s prefix : string) : bool := String.prefix prefix s.

(** [strings.Split(s, sep)] for a separator of one byte: the pieces of [s]
    between the occurrences of [sep], one more than there are
    occurrences. *)
Fixpoint Split (s : string) (sep : ascii) : list string :=
  match s with
  | EmptyString => [EmptyString]
  | String c s' =>
      if Ascii.eqb c sep then EmptyString :: Split s' sep
      else match Split s' sep with
           | [] => [String c EmptyString]
           | piece :: pieces => String c piece :: pieces
           end
  end.

(** Number of occurrences of a byte in a string. *)
Fixpoint Count (s : string) (sep : ascii) : nat :=
  match s with
  | EmptyString => 0
  | String c s' => (if Ascii.eqb c sep then 1 else 0) + Count s' sep
  end.

End strings.

(** ** Package [did]: identity documents *)
Module did.

Record PublicKey : Type := mkPublicKey {
  PublicKey_ID : string;
  PublicKey_Type : string
}.

Record VerificationMethod : Type := mkVerificationMethod {
  VM_PublicKey : PublicKey
}.

Record Doc : Type := mkDoc {
  Doc_ID : string;
  Doc_PublicKey : list PublicKey;
  Doc_Authentication : list VerificationMethod
}.

Inductive VerificationRelationship : Type :=
| Authentication
| AssertionMethod.

(** Modelled from the spec: [Doc.VerificationMethods] of [pkg/doc/did] is
    not among the sources.  The spec's identity document is "an id plus
    relationship maps from purpose to ordered lists of
    VerificationMethods", and resolution "enumerate[s] the identity
    document's verification-method list for [purpose], in document
    order".  [VerificationMethods doc rel] is the entry of that map at
    [rel]; authentication is the only relationship the controller reads,
    and the only one [Doc] carries here. *)
Definition VerificationMethods (doc : Doc) (rel : VerificationRelationship)
  : list VerificationMethod :=
  match rel with
  | Authentication => Doc_Authentication doc
  | AssertionMethod => []
  end.

End did.

(** ** Package [base64] *)
Module base64.

Definition StdAlphabet : string :=
  "ABCDEFGHIJKLMNOPQRSTUVWXYZabcdefghijklmnopqrstuvwxyz0123456789+/".

Definition URLAlphabet : string :=
  "ABCDEFGHIJKLMNOPQRSTUVWXYZabcdefghijklmnopqrstuvwxyz0123456789-_".

(** The character that encodes the six-bit value [n]. *)
Definition digit (alphabet : string) (n : N) : ascii :=
  match String.get (N.to_nat n) alphabet with
  | Some c => c
  | None => "="%char
  end.

Definition sextet (alphabet : string) (n : N) (shift : N) : string :=
  String (digit alphabet (N.land (N.shiftr n shift) 63)) EmptyString.

(** [EncodeToString]: three bytes become four characters; a tail of one
    or two bytes is padded with [=] when [padding] is set. *)
Fixpoint encode (alphabet : string) (padding : bool) (src : bytes) : string :=
  match src with
  | [] => EmptyString
  | [b1] =>
      let n := N.shiftl (Byte.to_N b1) 16 in
      sextet alphabet n 18 ++ sextet alphabet n 12
        ++ (if padding then "==" else "")
  | [b1; b2] =>
      let n := N.lor (N.shiftl (Byte.to_N b1) 16) (N.shiftl (Byte.to_N b2) 8) in
      sextet alphabet n 18 ++ sextet alphabet n 12 ++ sextet alphabet n 6
        ++ (if padding then "=" else "")
  | b1 :: b2 :: b3 :: rest =>
      let n := N.lor (N.lor (N.shiftl (Byte.to_N b1) 16)
                            (N.shiftl (Byte.to_N b2) 8)) (Byte.to_N b3) in
      sextet alphabet n 18 ++ sextet alphabet n 12 ++ sextet alphabet n 6
        ++ sextet alphabet n 0 ++ encode alphabet padding rest
  end.

(** [base64.StdEncoding.EncodeToString]. *)
Definition StdEncoding_EncodeToString (src : bytes) : string :=
  encode StdAlphabet true src.

(** [base64.RawURLEncoding.EncodeToString]. *)
Definition RawURLEncoding_EncodeToString (src : bytes) : string :=
  encode URLAlphabet false src.

(** The six-bit value a character stands for. *)
Fixpoint value (alphabet : string) (c : ascii) : option N :=
  match alphabet with
  | EmptyString => None
  | String a rest =>
      if Ascii.eqb a c then Some 0%N
      else option_map N.succ (value rest c)
  end.

Definition octet (n : N) (shift : N) : byte :=
  match Byte.of_N (N.land (N.shiftr n shift) 255) with
  | Some b => b
  | None => x00
  end.

(** The decoder skips carriage returns and line feeds wherever they are. *)
Fixpoint stripNewlines (s : string) : string :=
  match s with
  | EmptyString => EmptyString
  | String c rest =>
      if orb (Ascii.eqb c "010"%char) (Ascii.eqb c "013"%char)
      then stripNewlines rest
      else String c (stripNewlines rest)
  end.

Definition isEmpty (s : string) : bool :=
  match s with
  | EmptyString => true
  | String _ _ => false
  end.

Definition isPad (c : ascii) : bool := Ascii.eqb c "="%char.

Definition oneOctet (a b : N) : bytes :=
  let n := N.lor (N.shiftl a 18) (N.shiftl b 12) in
  [octet n 16].

Definition twoOctets (a b c : N) : bytes :=
  let n := N.lor (N.lor (N.shiftl a 18) (N.shiftl b 12)) (N.shiftl c 6) in
  [octet n 16; octet n 8].

Definition threeOctets (a b c d : N) : bytes :=
  let n := N.lor (N.lor (N.lor (N.shiftl a 18) (N.shiftl b 12)) (N.shiftl c 6)) d in
  [octet n 16; octet n 8; octet n 0].

(** The quanta of four characters, each giving three bytes.  With
    padding, the last quantum may end in [=] (two bytes) or [==] (one
    byte), nothing may follow it, and a shorter tail is corrupt; without
    padding, [=] is no character of the encoding and the tail may have
    three characters (two bytes) or two (one byte), never one. *)
Fixpoint quanta (alphabet : string) (padding : bool) (s : string) : option bytes :=
  match s with
  | EmptyString => Some []
  | String c1 (String c2 (String c3 (String c4 rest))) =>
      match value alphabet c1, value alphabet c2, value alphabet c3, value alphabet c4 with
      | Some a, Some b, Some c, Some d =>
          option_map (fun tail => threeOctets a b c d ++ tail)
                     (quanta alphabet padding rest)
      | Some a, Some b, Some c, None =>
          if andb padding (andb (isPad c4) (isEmpty rest))
          then Some (twoOctets a b c) else None
      | Some a, Some b, None, _ =>
          if andb padding (andb (andb (isPad c3) (isPad c4)) (isEmpty rest))
          then Some (oneOctet a b) else None
      | _, _, _, _ => None
      end
  | String c1 (String c2 (String c3 EmptyString)) =>
      match value alphabet c1, value alphabet c2, value alphabet c3 with
      | Some a, Some b, Some c => if padding then None else Some (twoOctets a b c)
      | _, _, _ => None
      end
  | String c1 (String c2 EmptyString) =>
      match value alphabet c1, value alphabet c2 with
      | Some a, Some b => if padding then None else Some (oneOctet a b)
      | _, _ => None
      end
  | String _ EmptyString => None
  end.

(** [DecodeString]: the bytes, or the corrupt-input error. *)
Definition decode (alphabet : string) (padding : bool) (s : string) : result bytes :=
  match quanta alphabet padding (stripNewlines s) with
  | Some bs => Ok bs
  | None => Err (errors_New "illegal base64 data")
  end.

(** [base64.StdEncoding.DecodeString]. *)
Definition StdEncoding_DecodeString (s : string) : result bytes :=
  decode StdAlphabet true s.

(** [base64.RawURLEncoding.DecodeString]. *)
Definition RawURLEncoding_DecodeString (s : string) : result bytes :=
  decode URLAlphabet false s.

End base64.

(** ** Package [verifiable]: documents, proofs and signature suites

    [pkg/doc/verifiable] and the suites under [pkg/doc/signature] are not
    among the sources; the controller calls them and the package examples
    print what they produce.  This module gives them the behaviour the
    specification writes down (sections 3 and 4). *)
Module verifiable.

(** Untyped JSON, as [map[string]interface{}] and [json.RawMessage] hold
    it.  Object members are kept in a list; numbers are integers and
    timestamps are held as seconds since the epoch. *)
Inductive JSON : Type :=
| JNull
| JBool (b : bool)
| JNum (n : Z)
| JStr (s : string)
| JArr (items : list JSON)
| JObj (members : list (string * JSON)).

Definition Object : Type := list (string * JSON).

Fixpoint lookup (key : string) (members : Object) : option JSON :=
  match members with
  | [] => None
  | (k, v) :: rest => if String.eqb k key then Some v else lookup key rest
  end.

Definition keys (members : Object) : list string := map fst members.

Definition lookupString (key : string) (members : Object) : string :=
  match lookup key members with
  | Some (JStr s) => s
  | _ => ""
  end.

(** A proof is an open key/value map. *)
Definition Proof : Type := Object.

Inductive SignatureRepresentation : Type :=
| SignatureProofValue
| SignatureJWS.

(** The capability that signs: bound to one key, it never shows the key. *)
Record Signer : Type := mkSigner {
  Sign : bytes -> result bytes
}.

Record PublicKey : Type := mkPublicKey {
  PublicKey_Type : string;
  PublicKey_Value : bytes
}.

Record Verifier : Type := mkVerifier {
  Verify : PublicKey -> bytes -> bytes -> result unit
}.

(** [fetch(issuerID, keyID)]. *)
Definition PublicKeyFetcher : Type := string -> string -> result PublicKey.

(** Modelled from the spec: the suite handle of section 4.2, "capable of
    (sign-canonicalize, verify-canonicalize, sign, verify)": the suite
    name it answers to, the header of the compact JWS it writes, and the
    signer and verifier it was built with. *)
Record SignatureSuite : Type := mkSuite {
  Accept : string -> bool;
  Alg : string;
  suite_signer : option Signer;
  suite_verifier : option Verifier
}.

Definition quote : string := String (ascii_of_nat 34) EmptyString.

(** Modelled from the spec: the "compact JWS string" a proof stores under
    [jws] is a detached JWS; this is its protected header, in base64url,
    naming the suite's algorithm (for Ed25519Signature2018 it is the
    header the examples print). *)
Definition JWSHeader (suite : SignatureSuite) : string :=
  base64.RawURLEncoding_EncodeToString
    (list_byte_of_string
       ("{" ++ quote ++ "alg" ++ quote ++ ":" ++ quote ++ Alg suite ++ quote
        ++ "," ++ quote ++ "b64" ++ quote ++ ":false,"
        ++ quote ++ "crit" ++ quote ++ ":[" ++ quote ++ "b64" ++ quote ++ "]}")).

(** Modelled from the spec: the collaborators of section 6 that proof
    construction consumes: the canonicalizer driven by the document
    loader, which turns a document into its ordered statement list or
    fails with a canonicalization error, and the clock behind "created
    defaults to now". *)
Record Collaborators : Type := mkCollaborators {
  canonicalize : JSON -> result (list string);
  now : Time
}.

Record LinkedDataProofContext : Type := mkLinkedDataProofContext {
  ctx_SignatureType : string;
  ctx_Suite : SignatureSuite;
  ctx_SignatureRepresentation : SignatureRepresentation;
  ctx_Created : option Time;
  ctx_VerificationMethod : string;
  ctx_Challenge : string;
  ctx_Domain : string;
  ctx_Purpose : string
}.

Definition optionalMember (key value : string) : Object :=
  if String.eqb value "" then [] else [(key, JStr value)].

(** Modelled from the spec: the Proof record of section 4.4 before its
    signature is known: "created defaults to now if unset; purpose
    defaults to assertionMethod unless caller overrides". *)
Definition proofOptions (c : Collaborators) (ctx : LinkedDataProofContext) : Proof :=
  [ ("type", JStr (ctx_SignatureType ctx));
    ("created", JNum (match ctx_Created ctx with
                      | Some t => t
                      | None => now c
                      end));
    ("proofPurpose", JStr (if String.eqb (ctx_Purpose ctx) ""
                           then "assertionMethod" else ctx_Purpose ctx));
    ("verificationMethod", JStr (ctx_VerificationMethod ctx)) ]
  ++ optionalMember "domain" (ctx_Domain ctx)
  ++ optionalMember "challenge" (ctx_Challenge ctx).

(** Modelled from the spec: the canonical bytes of section 4.3 for one
    proof: the document's members with that proof's options, none of the
    other proofs and no signature value. *)
Definition canonicalBytes (c : Collaborators) (fields : Object) (options : Proof)
  : result bytes :=
  statements <- canonicalize c (JObj (fields ++ [("proof", JObj options)])) ;;
  Ok (list_byte_of_string (String.concat "" statements)).

(** Modelled from the spec: the representation mapping of section 4.4:
    "SignatureJWS proofs store the compact JWS string under jws; all
    other representations store suite-native encoded bytes under
    proofValue". *)
Definition signatureMember (suite : SignatureSuite)
    (representation : SignatureRepresentation) (signature : bytes)
  : string * JSON :=
  match representation with
  | SignatureJWS =>
      ("jws", JStr (JWSHeader suite ++ ".."
                    ++ base64.RawURLEncoding_EncodeToString signature))
  | SignatureProofValue =>
      ("proofValue", JStr (base64.StdEncoding_EncodeToString signature))
  end.

(** Modelled from the spec: [addProof] of section 4.4 on the members and
    the proof collection of a document: canonicalize, sign with the
    suite's signer, build the Proof record and append it.  Any failure
    leaves the collection as it was: "the proof is not attached". *)
Definition addProof (c : Collaborators) (fields : Object) (proofs : list Proof)
    (ctx : LinkedDataProofContext) : result (list Proof) :=
  let options := proofOptions c ctx in
  message <- canonicalBytes c fields options ;;
  signer <- match suite_signer (ctx_Suite ctx) with
            | Some s => Ok s
            | None => Err (errors_New "signer is not defined")
            end ;;
  signature <- Sign signer message ;;
  Ok (proofs ++ [options ++ [signatureMember (ctx_Suite ctx)
                               (ctx_SignatureRepresentation ctx) signature]]).

(** The issuer reference: an id and extension fields. *)
Record Issuer : Type := mkIssuer {
  Issuer_ID : string;
  Issuer_CustomFields : Object
}.

(** A schema reference. *)
Record TypedID : Type := mkTypedID {
  TypedID_ID : string;
  TypedID_Type : string
}.

(** Modelled from the spec: [Credential] of [pkg/doc/verifiable], as
    section 3 describes it: "an ordered set of context identifiers, an
    id, one or more type tags, a subject payload, an issuer reference,
    issuance/expiration timestamps, zero or more schema references",
    extension fields, "and zero, one, or many Proof entries". *)
Record Credential : Type := mkCredential {
  Context : list string;
  ID : string;
  Types : list string;
  Subject : JSON;
  Credential_Issuer : Issuer;
  Issued : option Time;
  Expired : option Time;
  Schemas : list TypedID;
  CustomFields : Object;
  Credential_Proofs : list Proof
}.

Definition set_Credential_Proofs (vc : Credential) (proofs : list Proof)
  : Credential :=
  mkCredential (Context vc) (ID vc) (Types vc) (Subject vc) (Credential_Issuer vc)
    (Issued vc) (Expired vc) (Schemas vc) (CustomFields vc) proofs.

Definition timeMember (key : string) (t : option Time) : Object :=
  match t with
  | Some t => [(key, JNum t)]
  | None => []
  end.

(** An issuer with nothing but an id is written as the id alone. *)
Definition issuerMember (issuer : Issuer) : Object :=
  match Issuer_CustomFields issuer with
  | [] => optionalMember "issuer" (Issuer_ID issuer)
  | custom =>
      [("issuer", JObj (optionalMember "id" (Issuer_ID issuer) ++ custom))]
  end.

Definition schemaMember (schemas : list TypedID) : Object :=
  match schemas with
  | [] => []
  | _ => [("credentialSchema",
           JArr (map (fun t => JObj [("id", JStr (TypedID_ID t));
                                     ("type", JStr (TypedID_Type t))]) schemas))]
  end.

(** Modelled from the spec: the members of a credential other than its
    proofs, as its JSON form has them; empty members are left out, as in
    the documents the examples print. *)
Definition Credential_fields (vc : Credential) : Object :=
  [("@context", JArr (map JStr (Context vc)))]
  ++ optionalMember "id" (ID vc)
  ++ [("type", JArr (map JStr (Types vc)));
      ("credentialSubject", Subject vc)]
  ++ issuerMember (Credential_Issuer vc)
  ++ timeMember "issuanceDate" (Issued vc)
  ++ timeMember "expirationDate" (Expired vc)
  ++ schemaMember (Schemas vc)
  ++ CustomFields vc.

(** Modelled from the spec: "a document's proof field holds either a
    single Proof or an ordered list of Proofs". *)
Definition proofField (proofs : list Proof) : Object :=
  match proofs with
  | [] => []
  | [proof] => [("proof", JObj proof)]
  | _ => [("proof", JArr (map JObj proofs))]
  end.

Definition Credential_MarshalJSON (vc : Credential) : JSON :=
  JObj (Credential_fields vc ++ proofField (Credential_Proofs vc)).

(** Modelled from the spec: [Credential.AddLinkedDataProof]: [addProof]
    on the credential.  The result is the credential after the call; on
    an error the credential is the one before it. *)
Definition Credential_AddLinkedDataProof (c : Collaborators) (vc : Credential)
    (ctx : LinkedDataProofContext) : result Credential :=
  proofs <- addProof c (Credential_fields vc) (Credential_Proofs vc) ctx ;;
  Ok (set_Credential_Proofs vc proofs).

(** Modelled from the spec: [Presentation] of [pkg/doc/verifiable], a
    document of section 3 with the holder the controller assigns. *)
Record Presentation : Type := mkPresentation {
  Presentation_Context : list string;
  Presentation_ID : string;
  Presentation_Type : list string;
  Presentation_credentials : list JSON;
  Holder : string;
  Proofs : list Proof
}.

Definition set_Holder (vp : Presentation) (holder : string) : Presentation :=
  mkPresentation (Presentation_Context vp) (Presentation_ID vp)
    (Presentation_Type vp) (Presentation_credentials vp) holder (Proofs vp).

Definition set_Proofs (vp : Presentation) (proofs : list Proof) : Presentation :=
  mkPresentation (Presentation_Context vp) (Presentation_ID vp)
    (Presentation_Type vp) (Presentation_credentials vp) (Holder vp) proofs.

(** Modelled from the spec: the members of a presentation other than its
    proofs (section 3: context identifiers, id, type tags, payload), with
    the holder the controller sets. *)
Definition Presentation_fields (vp : Presentation) : Object :=
  [ ("@context", JArr (map JStr (Presentation_Context vp)));
    ("id", JStr (Presentation_ID vp));
    ("type", JArr (map JStr (Presentation_Type vp)));
    ("verifiableCredential", JArr (Presentation_credentials vp));
    ("holder", JStr (Holder vp)) ].

(** Modelled from the spec: [Presentation.AddLinkedDataProof]: [addProof]
    on the presentation.  The result is the presentation after the call;
    on an error the presentation is the one before it. *)
Definition AddLinkedDataProof (c : Collaborators) (vp : Presentation)
    (ctx : LinkedDataProofContext) : result Presentation :=
  proofs <- addProof c (Presentation_fields vp) (Proofs vp) ctx ;;
  Ok (set_Proofs vp proofs).

(** *** Verification of linked-data proofs *)

Definition isSignatureMember (member : string * JSON) : bool :=
  orb (String.eqb (fst member) "jws") (String.eqb (fst member) "proofValue").

(** Modelled from the spec: the options of a stored proof, from which
    its canonical bytes are re-derived: the proof without its signature. *)
Definition storedOptions (proof : Proof) : Proof :=
  filter (fun member => negb (isSignatureMember member)) proof.

(** Modelled from the spec: the signature bytes a stored proof carries:
    the last part of the compact JWS under [jws], or the encoded bytes
    under [proofValue]. *)
Definition storedSignature (proof : Proof) : result bytes :=
  match lookup "jws" proof with
  | Some (JStr jws) =>
      base64.RawURLEncoding_DecodeString
        (last (strings.Split jws "."%char) "")
  | _ =>
      match lookup "proofValue" proof with
      | Some (JStr value) => base64.StdEncoding_DecodeString value
      | _ => Err (errors_New "signature is not defined")
      end
  end.

(** Modelled from the spec: [suite(name)] of section 4.2 over the suites
    the verifier was given: the first that answers to the name, or the
    unsupported-suite error. *)
Fixpoint findSuite (suites : list SignatureSuite) (name : string)
  : result SignatureSuite :=
  match suites with
  | [] => Err (Errorf_s "signature type %s not supported" name)
  | suite :: rest => if Accept suite name then Ok suite else findSuite rest name
  end.

(** Modelled from the spec: "fetch the public key by (issuer id,
    verification-method id)": the key of a verification method
    [issuerID#keyID] is fetched as [(issuerID, #keyID)], the key ids the
    fetcher of the multi-proof example answers to. *)
Definition fetchKey (fetcher : PublicKeyFetcher) (verificationMethod : string)
  : result PublicKey :=
  match strings.Split verificationMethod "#"%char with
  | [issuerID; keyID] => fetcher issuerID (String "#" keyID)
  | idSplit => Err (Errorf_strs "wrong id %s to resolve" idSplit)
  end.

(** Modelled from the spec: [verifyProof] of section 4.4 for one proof:
    "re-derive canonical bytes, fetch the public key by (issuer id,
    verification-method id) from the externally supplied fetcher, and
    check the suite's verify". *)
Definition verifyProof (c : Collaborators) (suites : list SignatureSuite)
    (fetcher : PublicKeyFetcher) (fields : Object) (proof : Proof) : result unit :=
  suite <- findSuite suites (lookupString "type" proof) ;;
  verifier <- match suite_verifier suite with
              | Some v => Ok v
              | None => Err (errors_New "verifier is not defined")
              end ;;
  publicKey <- fetchKey fetcher (lookupString "verificationMethod" proof) ;;
  message <- canonicalBytes c fields (storedOptions proof) ;;
  signature <- storedSignature proof ;;
  Verify verifier publicKey message signature.

(** Modelled from the spec: "all proofs must independently verify; a
    document with N proofs is valid only if every proof validates
    against its own declared verification method". *)
Fixpoint verifyProofs (c : Collaborators) (suites : list SignatureSuite)
    (fetcher : PublicKeyFetcher) (fields : Object) (proofs : list Proof)
  : result unit :=
  match proofs with
  | [] => Ok tt
  | proof :: rest =>
      _ <- verifyProof c suites fetcher fields proof ;;
      verifyProofs c suites fetcher fields rest
  end.

Definition Credential_verify (c : Collaborators) (suites : list SignatureSuite)
    (fetcher : PublicKeyFetcher) (vc : Credential) : result unit :=
  verifyProofs c suites fetcher (Credential_fields vc) (Credential_Proofs vc).

(** *** JSON objects as maps *)

(** Replaces the value of the first member [key], or adds the member. *)
Fixpoint setMember (key : string) (value : JSON) (members : Object) : Object :=
  match members with
  | [] => [(key, value)]
  | (k, v) :: rest =>
      if String.eqb k key then (k, value) :: rest
      else (k, v) :: setMember key value rest
  end.

(** *** Selective disclosure (BBS+) *)

Definition BbsBlsSignature2020 : string := "BbsBlsSignature2020".
Definition BbsBlsSignatureProof2020 : string := "BbsBlsSignatureProof2020".

(** Modelled from the spec: the derived document of section 4.6, "a new
    document distinct from its source", in its JSON form: its members
    and its proofs. *)
Record Document : Type := mkDocument {
  Document_fields : Object;
  Document_Proofs : list Proof
}.

Definition isExplicit (frame : Object) : bool :=
  match lookup "@explicit" frame with
  | Some (JBool true) => true
  | _ => false
  end.

Definition memberOf (key : string) (keys : list string) : bool :=
  existsb (String.eqb key) keys.

(** Modelled from the spec: the members every node keeps, "mandatory
    id/type per statement semantics". *)
Definition nodeMandatory : list string := ["id"; "type"].

(** Modelled from the spec: "mandatory top-level fields (issuer,
    issuance date) are always retained regardless of reveal spec". *)
Definition topMandatory : list string :=
  nodeMandatory ++ ["issuer"; "issuanceDate"].

(** Modelled from the spec: the frame a reveal node gives for a child
    field; [@explicit] is the node's flag, not a child. *)
Definition frameChild (key : string) (frameMembers : Object) : option JSON :=
  if String.eqb key "@explicit" then None else lookup key frameMembers.

(** Modelled from the spec: the JSON-LD processing behind the derivation
    (section 2: "JSON-LD expansion + normalization driven by an external
    document-loader collaborator"): the form in which the processor
    writes back the value of a retained field.  The derived document is
    rebuilt from the revealed statements, so a set-valued member such as
    the type tags comes back in the processor's order, which need not be
    the input's; the examples print such arrays reordered. *)
Record Processor : Type := mkProcessor {
  compact : JSON -> JSON
}.

Definition frameMembers (frame : JSON) : Object :=
  match frame with
  | JObj members => members
  | _ => []
  end.

(** Modelled from the spec: one node of the walk of section 4.6: a
    member the frame enumerates is retained and walked with its own
    frame; a member it does not enumerate is hidden when the node is
    explicit and the member is not mandatory, and retained wholesale
    (walked with an empty frame) otherwise. *)
Definition walk (sub : JSON -> JSON -> JSON) (frameMembers : Object)
    (mandatory : list string) : Object -> Object :=
  fix walk (members : Object) : Object :=
    match members with
    | [] => []
    | (k, v) :: rest =>
        match frameChild k frameMembers with
        | Some f => (k, sub f v) :: walk rest
        | None =>
            if andb (isExplicit frameMembers) (negb (memberOf k mandatory))
            then walk rest
            else (k, sub (JObj []) v) :: walk rest
        end
    end.

(** Modelled from the spec: the walk of section 4.6, step 2: "at any
    node carrying [@explicit: true], only the explicitly enumerated
    child fields are retained; all sibling fields are marked hidden.
    Nodes without [@explicit] are retained wholesale (their descendants
    inherit visibility unless they themselves carry [@explicit])".
    [mandatory] lists the members the node keeps in any case.  The walk
    decides which members the derived document has; a retained value
    that is not itself a node is written back by the processor. *)
Fixpoint reveal (processor : Processor) (mandatory : list string)
    (frame : JSON) (doc : JSON) {struct doc} : JSON :=
  match doc with
  | JObj members =>
      JObj (walk (reveal processor nodeMandatory) (frameMembers frame)
              mandatory members)
  | _ => compact processor doc
  end.

Definition revealDocument (processor : Processor) (revealDoc : Object)
    (fields : Object) : Object :=
  match reveal processor topMandatory (JObj revealDoc) (JObj fields) with
  | JObj revealed => revealed
  | _ => fields
  end.

(** Modelled from the spec: the "BBS+ suite's proof-derivation
    primitive" of section 4.6, step 4, called "with the original
    signature, public key, full statement list, revealed-index set, and
    nonce". *)
Record BBS : Type := mkBBS {
  DeriveProof : list string -> bytes -> bytes -> PublicKey -> list nat -> result bytes
}.

(** Modelled from the spec: step 3 of section 4.6: the positions, in the
    full statement list, of the statements of the revealed document. *)
Fixpoint revealedIndexes (statements revealed : list string) (position : nat)
  : list nat :=
  match statements with
  | [] => []
  | statement :: rest =>
      if memberOf statement revealed
      then position :: revealedIndexes rest revealed (S position)
      else revealedIndexes rest revealed (S position)
  end.

Definition isBBSProof (proof : Proof) : bool :=
  String.eqb (lookupString "type" proof) BbsBlsSignature2020.

(** Modelled from the spec: steps 4 and 5 of section 4.6 for one BBS+
    proof: "the output proof type is BbsBlsSignatureProof2020 and
    additionally carries the nonce". *)
Definition deriveProof (bbs : BBS) (fetcher : PublicKeyFetcher)
    (statements : list string) (indexes : list nat) (nonce : bytes) (proof : Proof)
  : result Proof :=
  signature <- storedSignature proof ;;
  publicKey <- fetchKey fetcher (lookupString "verificationMethod" proof) ;;
  derived <- DeriveProof bbs statements signature nonce publicKey indexes ;;
  Ok (setMember "nonce" (JStr (base64.StdEncoding_EncodeToString nonce))
        (setMember "proofValue" (JStr (base64.StdEncoding_EncodeToString derived))
           (setMember "type" (JStr BbsBlsSignatureProof2020) proof))).

Fixpoint deriveProofs (bbs : BBS) (fetcher : PublicKeyFetcher)
    (statements : list string) (indexes : list nat) (nonce : bytes)
    (proofs : list Proof) : result (list Proof) :=
  match proofs with
  | [] => Ok []
  | proof :: rest =>
      derived <- deriveProof bbs fetcher statements indexes nonce proof ;;
      others <- deriveProofs bbs fetcher statements indexes nonce rest ;;
      Ok (derived :: others)
  end.

(** Modelled from the spec: the derivation of section 4.6.  The result
    is a new document; only the BBS+ proofs are carried over, each as
    its derived proof. *)
Definition GenerateBBSSelectiveDisclosure (c : Collaborators)
    (processor : Processor) (bbs : BBS)
    (credential : Credential) (revealDoc : Object) (nonce : bytes)
    (fetcher : PublicKeyFetcher) : result Document :=
  match filter isBBSProof (Credential_Proofs credential) with
  | [] => Err (errors_New "no BbsBlsSignature2020 proof present")
  | bbsProofs =>
      let fields := Credential_fields credential in
      statements <- canonicalize c (JObj fields) ;;
      let revealed := revealDocument processor revealDoc fields in
      revealedStatements <- canonicalize c (JObj revealed) ;;
      let indexes := revealedIndexes statements revealedStatements 0 in
      proofs <- deriveProofs bbs fetcher statements indexes nonce bbsProofs ;;
      Ok (mkDocument revealed proofs)
  end.

Definition Document_subject (document : Document) : option JSON :=
  lookup "credentialSubject" (Document_fields document).

(** The operations of [pkg/doc/verifiable] that the controller calls and
    the specification leaves to the package: building a presentation out
    of a credential, storing the credentials in it, serialization and
    parsing (the flag of [NewCredential] is the disabled proof check);
    with them, the collaborators the package signs with. *)
Record Package : Type := mkPackage {
  Credential_Presentation : Credential -> result Presentation;
  SetCredentials : Presentation -> list Credential -> result Presentation;
  MarshalJSON : Presentation -> result bytes;
  NewCredential : bytes -> bool -> result Credential;
  NewUnverifiedPresentation : bytes -> result Presentation;
  collaborators : Collaborators
}.

End verifiable.

(** ** The signature suites

    Modelled from the spec: the suite constructors of
    [pkg/doc/signature/suite], which are not among the sources: each
    builds the handle of section 4.2 that answers to its own suite name,
    around the signer and the verifier it is given. *)
Module ed25519signature2018.
Definition New (signer : option verifiable.Signer)
    (verifier : option verifiable.Verifier) : verifiable.SignatureSuite :=
  verifiable.mkSuite (String.eqb "Ed25519Signature2018") "EdDSA" signer verifier.
End ed25519signature2018.

Module bbsblssignature2020.
Definition New (signer : option verifiable.Signer)
    (verifier : option verifiable.Verifier) : verifiable.SignatureSuite :=
  verifiable.mkSuite (String.eqb "BbsBlsSignature2020") "" signer verifier.
End bbsblssignature2020.

Module jsonwebsignature2020.
Definition New (signer : option verifiable.Signer)
    (verifier : option verifiable.Verifier) : verifiable.SignatureSuite :=
  verifiable.mkSuite (String.eqb "JsonWebSignature2020") "JsonWebSignature2020"
    signer verifier.
End jsonwebsignature2020.

(** ** Package [command/verifiable]: the controller *)
Module command.

(** The handle the key manager gives out for a key: opaque. *)
Definition KeyHandle : Type := nat.

(** [kms.KeyManager], as far as the controller uses it. *)
Record KeyManager : Type := mkKeyManager {
  Get : string -> result KeyHandle
}.

(** [ariescrypto.Crypto], as far as the controller uses it. *)
Record Crypto : Type := mkCrypto {
  Crypto_Sign : bytes -> KeyHandle -> result bytes
}.

(** [vdri.Registry], as far as the controller uses it. *)
Record Registry : Type := mkRegistry {
  Resolve : string -> result did.Doc
}.

Record provider : Type := mkProvider {
  VDRIRegistry : Registry;
  KMS : KeyManager;
  provider_Crypto : Crypto
}.

Record verifiablestore_Store : Type := mkVerifiableStore {
  GetCredential : string -> result verifiable.Credential
}.

Record didstore_Store : Type := mkDIDStore {
  GetDID : string -> result did.Doc
}.

Record Command : Type := mkCommand {
  verifiableStore : verifiablestore_Store;
  didStore : didstore_Store;
  ctx : provider;
  pkg : verifiable.Package
}.

(** Error codes, [command.Code(iota + command.VC)]. *)
Inductive Code : Type :=
| InvalidRequestErrorCode
| ValidateCredentialErrorCode
| SaveCredentialErrorCode
| GetCredentialErrorCode
| GetCredentialByNameErrorCode
| GeneratePresentationErrorCode
| GeneratePresentationByIDErrorCode
| SavePresentationErrorCode
| GetPresentationErrorCode
| GetCredentialsErrorCode
| GetPresentationsErrorCode.

(** What a command leaves behind: the response it wrote, or the
    [command.Error] it returned. *)
Inductive outcome : Type :=
| Written (VerifiablePresentation : bytes)
| NewValidationError (code : Code) (e : error).

Definition creatorParts : nat := 2.
Definition Ed25519Signature2018 : string := "Ed25519Signature2018".
Definition JSONWebSignature2020 : string := "JsonWebSignature2020".
Definition Ed25519VerificationKey : string := "Ed25519VerificationKey".
Definition errEmptyCredentialID : string := "credential id is mandatory".
Definition errEmptyDID : string := "did is mandatory".

(** The request types of the package. *)
Record ProofOptions : Type := mkProofOptions {
  VerificationMethod : string;
  SignatureType : string;
  Created : option Time;
  Domain : string;
  Challenge : string;
  proofPurpose : string
}.

Definition emptyProofOptions : ProofOptions :=
  mkProofOptions "" "" None "" "" "".

Definition set_proofPurpose (opts : ProofOptions) (purpose : string) : ProofOptions :=
  mkProofOptions (VerificationMethod opts) (SignatureType opts) (Created opts)
    (Domain opts) (Challenge opts) purpose.

Definition set_VerificationMethod (opts : ProofOptions) (vm : string) : ProofOptions :=
  mkProofOptions vm (SignatureType opts) (Created opts)
    (Domain opts) (Challenge opts) (proofPurpose opts).

Record PresentationRequest : Type := mkPresentationRequest {
  VerifiableCredentials : list bytes;
  Presentation : bytes;
  DID : string;
  request_ProofOptions : option ProofOptions;
  SkipVerify : bool
}.

Record PresentationRequestByID : Type := mkPresentationRequestByID {
  byID_ID : string;
  byID_DID : string;
  byID_SignatureType : string
}.

Record kmsSigner : Type := mkKMSSigner {
  keyHandle : KeyHandle;
  crypto : Crypto
}.

Definition newKMSSigner (keyManager : KeyManager) (c : Crypto) (creator : string)
  : result kmsSigner :=
  (* creator will contain didID#keyID *)
  let idSplit := strings.Split creator "#"%char in
  if negb (Nat.eqb (List.length idSplit) creatorParts) then
    Err (Errorf_strs "wrong id %s to resolve" idSplit)
  else
    keyHandler <- Get keyManager (nth 1 idSplit "") ;;
    Ok (mkKMSSigner keyHandler c).

Definition kmsSigner_Sign (s : kmsSigner) (data : bytes) : result bytes :=
  Crypto_Sign (crypto s) data (keyHandle s).

Definition isDID (str : string) : bool := strings.HasPrefix str "did:".

(** The loop of [getDefaultVerificationMethod]: the id of the first key
    whose type starts with [Ed25519VerificationKey], the empty string
    when there is none. *)
Fixpoint firstEd25519KeyID (keys : list did.PublicKey) : string :=
  match keys with
  | [] => ""
  | k :: rest =>
      if strings.HasPrefix (did.PublicKey_Type k) Ed25519VerificationKey
      then did.PublicKey_ID k
      else firstEd25519KeyID rest
  end.

Definition getDefaultVerificationMethod (didDoc : did.Doc) : result string :=
  match did.Doc_PublicKey didDoc with
  | k0 :: _ =>
      let publicKeyID := firstEd25519KeyID (did.Doc_PublicKey didDoc) in
      (* if there isn't any ed25519 key then pick first one *)
      let publicKeyID :=
        if String.eqb publicKeyID "" then did.PublicKey_ID k0 else publicKeyID in
      if negb (isDID publicKeyID) then Ok (did.Doc_ID didDoc ++ publicKeyID)%string
      else Ok publicKeyID
  | [] =>
      match did.Doc_Authentication didDoc with
      | vm0 :: _ => Ok (did.PublicKey_ID (did.VM_PublicKey vm0))
      | [] => Err (errors_New "public key not found in DID Document")
      end
  end.

(** The loop of [prepareOpts] over the authentication methods, on the two
    variables it updates: [opts.VerificationMethod] and [vmMatched]. *)
Fixpoint scanAuthVMs (authVMs : list did.VerificationMethod)
    (verificationMethod : string) (vmMatched : bool) : string * bool :=
  match authVMs with
  | [] => (verificationMethod, vmMatched)
  | vm :: rest =>
      if negb (String.eqb verificationMethod "") then
        if String.eqb verificationMethod (did.PublicKey_ID (did.VM_PublicKey vm))
        then (verificationMethod, true)
        else scanAuthVMs rest verificationMethod vmMatched
      else
        (* by default first authentication public key *)
        (did.PublicKey_ID (did.VM_PublicKey vm), vmMatched)
  end.

Definition errNoMatchingVM : error :=
  errors_New
    "unable to find matching 'authentication' key IDs for given verification method".

(** [prepareOpts] works on the options object it is handed (a fresh one
    when it is handed [nil]).  The first component is the state it leaves
    that object in; the second is [None] when it returns the object and
    the error when it returns [nil] and an error. *)
Definition prepareOpts (opts : option ProofOptions) (didDoc : did.Doc)
  : ProofOptions * option error :=
  let opts := match opts with
              | None => emptyProofOptions
              | Some o => o
              end in
  let opts := set_proofPurpose opts "authentication" in
  let authVMs := did.VerificationMethods didDoc did.Authentication in
  let vmMatched := String.eqb (VerificationMethod opts) "" in
  let '(vm, vmMatched) := scanAuthVMs authVMs (VerificationMethod opts) vmMatched in
  let opts := set_VerificationMethod opts vm in
  if negb vmMatched then (opts, Some errNoMatchingVM)
  else if String.eqb (VerificationMethod opts) "" then
    (* the fallback logic kept for DIDs not having authentication method *)
    match getDefaultVerificationMethod didDoc with
    | Err e =>
        (opts, Some (Errorf_w "failed to get default verification method: %w" e))
    | Ok defaultVM => (set_VerificationMethod opts defaultVM, None)
    end
  else (opts, None).

(** [addLinkedDataProof] works on the presentation it is handed.  The
    first component is the state it leaves the presentation in; the
    second is [None] when it returns the presentation and the error when
    it returns [nil] and an error. *)
Definition addLinkedDataProof (o : Command) (vp : verifiable.Presentation)
    (opts : ProofOptions) : verifiable.Presentation * option error :=
  match newKMSSigner (KMS (ctx o)) (provider_Crypto (ctx o)) (VerificationMethod opts) with
  | Err e => (vp, Some e)
  | Ok s =>
      let signer := Some (verifiable.mkSigner (kmsSigner_Sign s)) in
      let signatureSuite :=
        if String.eqb (SignatureType opts) Ed25519Signature2018
        then Ok (ed25519signature2018.New signer None)
        else if String.eqb (SignatureType opts) JSONWebSignature2020
        then Ok (jsonwebsignature2020.New signer None)
        else Err (Errorf_s "signature type unsupported %s" (SignatureType opts)) in
      match signatureSuite with
      | Err e => (vp, Some e)
      | Ok signatureSuite =>
          let signingCtx :=
            verifiable.mkLinkedDataProofContext
              (SignatureType opts) signatureSuite verifiable.SignatureJWS
              (Created opts) (VerificationMethod opts)
              (Challenge opts) (Domain opts) (proofPurpose opts) in
          match verifiable.AddLinkedDataProof
                  (verifiable.collaborators (pkg o)) vp signingCtx with
          | Err e => (vp, Some (Errorf_w "failed to add linked data proof: %w" e))
          | Ok vp' => (vp', None)
          end
      end
  end.

(** The part of [createAndSignPresentation] from "set holder" on. *)
Definition setHolderAndSign (o : Command) (vp : verifiable.Presentation)
    (holder : string) (opts : ProofOptions) : result bytes :=
  (* set holder *)
  let vp := verifiable.set_Holder vp holder in
  (* Add proofs to vp - sign presentation *)
  match addLinkedDataProof o vp opts with
  | (_, Some e) => Err (Errorf_w "failed to sign vp: %w" e)
  | (vp, None) => verifiable.MarshalJSON (pkg o) vp
  end.

(** [credentials[0]] panics when no presentation and no credential is
    handed in. *)
Definition createAndSignPresentation (o : Command)
    (credentials : list verifiable.Credential)
    (vp : option verifiable.Presentation) (holder : string) (opts : ProofOptions)
  : run (result bytes) :=
  match vp with
  | Some vp => Returns (setHolderAndSign o vp holder opts)
  | None =>
      match credentials with
      | [] => Panics "index out of range [0] with length 0"
      | c0 :: _ =>
          Returns
            (vp <- verifiable.Credential_Presentation (pkg o) c0 ;;
             (* Add array of credentials in the presentation *)
             vp <- wrap "failed to set credentials: %w"
                        (verifiable.SetCredentials (pkg o) vp credentials) ;;
             setHolderAndSign o vp holder opts)
      end
  end.

Definition createAndSignPresentationByID (o : Command) (vc : verifiable.Credential)
    (didDoc : did.Doc) (signatureType : string) : result bytes :=
  (* pk is verification method *)
  pk <- getDefaultVerificationMethod didDoc ;;
  vp <- wrap "failed to create vp by ID: %w"
             (verifiable.Credential_Presentation (pkg o) vc) ;;
  match addLinkedDataProof o vp
          (mkProofOptions pk signatureType None "" "" "") with
  | (_, Some e) => Err (Errorf_w "failed to sign vp by ID: %w" e)
  | (vp, None) => verifiable.MarshalJSON (pkg o) vp
  end.

Definition generatePresentation (o : Command)
    (vcs : list verifiable.Credential) (p : option verifiable.Presentation)
    (holder : string) (opts : ProofOptions) : run outcome :=
  match createAndSignPresentation o vcs p holder opts with
  | Panics msg => Panics msg
  | Returns (Err e) =>
      Returns (NewValidationError GeneratePresentationByIDErrorCode
                 (Errorf_w "prepare vp: %w" e))
  | Returns (Ok vp) => Returns (Written vp)
  end.

Definition generatePresentationByID (o : Command) (vc : verifiable.Credential)
    (didDoc : did.Doc) (signatureType : string) : outcome :=
  match createAndSignPresentationByID o vc didDoc signatureType with
  | Err e =>
      NewValidationError GeneratePresentationByIDErrorCode
        (Errorf_w "prepare vp by id: %w" e)
  | Ok vp => Written vp
  end.

(** The loop of [parsePresentationRequest] over the raw credentials. *)
Fixpoint parseCredentials (o : Command) (skipVerify : bool) (raws : list bytes)
  : result (list verifiable.Credential) :=
  match raws with
  | [] => Ok []
  | vcRaw :: rest =>
      match verifiable.NewCredential (pkg o) vcRaw skipVerify with
      | Err e => Err (Errorf_w "parse credential failed: %w" e)
      | Ok vc => vcs <- parseCredentials o skipVerify rest ;; Ok (vc :: vcs)
      end
  end.

(** [request.SignatureType] is a field of the embedded [*ProofOptions]:
    reading it through a nil pointer panics. *)
Definition request_SignatureType (request : PresentationRequest) : run string :=
  match request_ProofOptions request with
  | Some opts => Returns (SignatureType opts)
  | None => Panics "invalid memory address or nil pointer dereference"
  end.

Definition parsePresentationRequest (o : Command) (request : PresentationRequest)
    (didDoc : did.Doc)
  : run (result (list verifiable.Credential * option verifiable.Presentation
                 * ProofOptions)) :=
  if andb (Nat.eqb (List.length (VerifiableCredentials request)) 0)
          (Nat.eqb (List.length (Presentation request)) 0)
  then Returns (Err (errors_New
                       "invalid request, no valid credentials/presentation found"))
  else
    match request_SignatureType request with
    | Panics msg => Panics msg
    | Returns signatureType =>
        Returns
          (if String.eqb signatureType ""
           then Err (errors_New "invalid request, signature type empty")
           else
             parsed <-
               (if negb (Nat.eqb (List.length (VerifiableCredentials request)) 0)
                then
                  vcs <- parseCredentials o (SkipVerify request)
                           (VerifiableCredentials request) ;;
                  Ok (vcs, None)
                else
                  presentation <- wrap "parse presentation failed: %w"
                    (verifiable.NewUnverifiedPresentation (pkg o)
                       (Presentation request)) ;;
                  Ok ([], Some presentation)) ;;
             match prepareOpts (request_ProofOptions request) didDoc with
             | (_, Some e) => Err (Errorf_w "failed to prepare proof options: %w" e)
             | (opts, None) => Ok (fst parsed, snd parsed, opts)
             end)
    end.

(** [GeneratePresentation] on the outcome of decoding the request. *)
Definition GeneratePresentation (o : Command) (req : result PresentationRequest)
  : run outcome :=
  match req with
  | Err e => Returns (NewValidationError InvalidRequestErrorCode
                        (Errorf_w "request decode : %w" e))
  | Ok request =>
      let resolved :=
        match Resolve (VDRIRegistry (ctx o)) (DID request) with
        | Ok didDoc => Ok didDoc
        | Err _ =>
            (* if did not found in VDRI, look through in local storage *)
            GetDID (didStore o) (DID request)
        end in
      match resolved with
      | Err e =>
          Returns
            (NewValidationError GeneratePresentationErrorCode
               (Errorf_w "generate vp - failed to get did doc from store or vdri : %w" e))
      | Ok didDoc =>
          match parsePresentationRequest o request didDoc with
          | Panics msg => Panics msg
          | Returns (Err e) =>
              Returns
                (NewValidationError GeneratePresentationErrorCode
                   (Errorf_w "generate vp - parse presentation request: %w" e))
          | Returns (Ok (credentials, presentation, opts)) =>
              generatePresentation o credentials presentation
                (did.Doc_ID didDoc) opts
          end
      end
  end.

(** [GeneratePresentationByID] on the outcome of decoding the request. *)
Definition GeneratePresentationByID (o : Command)
    (req : result PresentationRequestByID) : outcome :=
  match req with
  | Err e => NewValidationError InvalidRequestErrorCode
               (Errorf_w "request decode : %w" e)
  | Ok request =>
      if String.eqb (byID_ID request) "" then
        NewValidationError InvalidRequestErrorCode (errors_New errEmptyCredentialID)
      else if String.eqb (byID_DID request) "" then
        NewValidationError InvalidRequestErrorCode (errors_New errEmptyDID)
      else
        match GetCredential (verifiableStore o) (byID_ID request) with
        | Err e => NewValidationError GeneratePresentationByIDErrorCode
                     (Errorf_w "get vc by id : %w" e)
        | Ok vc =>
            match GetDID (didStore o) (byID_DID request) with
            | Err e => NewValidationError GeneratePresentationErrorCode
                         (Errorf_w "failed to get did doc from store : %w" e)
            | Ok doc =>
                generatePresentationByID o vc doc (byID_SignatureType request)
            end
        end
  end.

End command.

(** ** Vocabulary of the properties *)
Module props.
Import command.

(** The public-key ids of the authentication methods, in document order. *)
Definition authIDs (didDoc : did.Doc) : list string :=
  map (fun vm => did.PublicKey_ID (did.VM_PublicKey vm))
      (did.Doc_Authentication didDoc).

(** What a call of [prepareOpts] resolves to: the verification method of
    the options it returns, or its error. *)
Definition resolved (r : ProofOptions * option error) : result string :=
  match r with
  | (opts, None) => Ok (VerificationMethod opts)
  | (_, Some e) => Err e
  end.

(** Resolution with a requested method id and nothing else. *)
Definition resolve (didDoc : did.Doc) (requestedMethodID : string) : result string :=
  resolved (prepareOpts
              (Some (set_VerificationMethod emptyProofOptions requestedMethodID))
              didDoc).

Definition isEd25519Key (k : did.PublicKey) : bool :=
  strings.HasPrefix (did.PublicKey_Type k) Ed25519VerificationKey.

(** The default key in the specification's words: "the first key whose
    type is an Ed25519 verification-key variant, else the first key
    present". *)
Definition specDefaultKey (k0 : did.PublicKey) (rest : list did.PublicKey)
  : did.PublicKey :=
  match find isEd25519Key (k0 :: rest) with
  | Some k => k
  | None => k0
  end.

(** The key [getDefaultVerificationMethod] ends up with, as its loop
    and the test that follows it compute it. *)
Definition chosenDefaultKey (k0 : did.PublicKey) (rest : list did.PublicKey)
  : did.PublicKey :=
  match find isEd25519Key (k0 :: rest) with
  | Some k => if String.eqb (did.PublicKey_ID k) "" then k0 else k
  | None => k0
  end.

(** "If the key id is not itself a fully-qualified document identifier,
    qualify it by prefixing the document id." *)
Definition qualified (didDoc : did.Doc) (k : did.PublicKey) : string :=
  if isDID (did.PublicKey_ID k) then did.PublicKey_ID k
  else (did.Doc_ID didDoc ++ did.PublicKey_ID k)%string.

Definition errUnsupportedSuite (signatureType : string) : error :=
  Errorf_s "signature type unsupported %s" signatureType.

Definition errWrongID (creator : string) : error :=
  Errorf_strs "wrong id %s to resolve" (strings.Split creator "#"%char).

Definition errNoPublicKey : error :=
  errors_New "public key not found in DID Document".

(** The reveal node of the selective-disclosure example for the
    subject: explicit, with the subject's type tags and the three
    fields to reveal. *)
Definition disclosedSubjectFrame (types : list verifiable.JSON) : verifiable.Object :=
  [("@explicit", verifiable.JBool true);
   ("type", verifiable.JArr types);
   ("givenName", verifiable.JObj []);
   ("familyName", verifiable.JObj []);
   ("gender", verifiable.JObj [])].

(** The three revealed fields and the two mandatory ones. *)
Definition disclosedKeys : list string :=
  ["givenName"; "familyName"; "gender"; "id"; "type"].

Definition isDisclosed (member : string * verifiable.JSON) : bool :=
  verifiable.memberOf (fst member) disclosedKeys.

End props.

(** ** Package [verifiable_test]: the documents of the examples *)
Module verifiable_test.
Import verifiable.

(** 2010-01-01T19:23:24Z and 2020-01-01T19:23:24Z. *)
Definition issued : Time := 1262373804%Z.
Definition expired : Time := 1577906604%Z.

Definition degreeSubject : JSON :=
  JObj [("degree", JObj [("type", JStr "BachelorDegree");
                         ("university", JStr "MIT")]);
        ("id", JStr "did:example:ebfeb1f712ebc6f1c276e12ec21");
        ("name", JStr "Jayden Doe");
        ("spouse", JStr "did:example:c276e12ec21ebfeb1f712ebc6f1")].

Definition degreeCredential (customFields : Object) : Credential :=
  mkCredential
    ["https://www.w3.org/2018/credentials/v1";
     "https://www.w3.org/2018/credentials/examples/v1"]
    "http://example.edu/credentials/1872"
    ["VerifiableCredential"; "UniversityDegreeCredential"]
    degreeSubject
    (mkIssuer "did:example:76e12ec712ebc6f1c221ebfeb1f"
              [("name", JStr "Example University")])
    (Some issued) (Some expired) [] customFields [].

Definition residentSubject : Object :=
  [("id", JStr "did:example:b34ca6cd37bbf23");
   ("type", JArr [JStr "PermanentResident"; JStr "Person"]);
   ("givenName", JStr "JOHN");
   ("familyName", JStr "SMITH");
   ("gender", JStr "Male");
   ("image", JStr "data:image/png;base64,iVBORw0KGgokJggg==");
   ("residentSince", JStr "2015-01-01");
   ("lprCategory", JStr "C09");
   ("lprNumber", JStr "999-999-999");
   ("commuterClassification", JStr "C1");
   ("birthCountry", JStr "Bahamas");
   ("birthDate", JStr "1958-07-17")].

(** 2019-12-03T12:19:52Z and 2029-12-03T12:19:52Z. *)
Definition residentCard (proofs : list Proof) : Credential :=
  mkCredential
    ["https://www.w3.org/2018/credentials/v1";
     "https://w3id.org/citizenship/v1";
     "https://w3id.org/security/bbs/v1"]
    "https://issuer.oidp.uscis.gov/credentials/83627465"
    ["VerifiableCredential"; "PermanentResidentCard"]
    (JObj residentSubject)
    (mkIssuer "did:example:b34ca6cd37bbf23" [])
    (Some 1575375592%Z) (Some 1890994792%Z) []
    [("identifier", JStr "83627465");
     ("name", JStr "Permanent Resident Card");
     ("description", JStr "Government of Example Permanent Resident Card.")]
    proofs.

Definition subjectFrame : Object :=
  [("@explicit", JBool true);
   ("type", JArr [JStr "PermanentResident"; JStr "Person"]);
   ("givenName", JObj []);
   ("familyName", JObj []);
   ("gender", JObj [])].

Definition revealDoc : Object :=
  [("@context", JArr [JStr "https://www.w3.org/2018/credentials/v1";
                      JStr "https://w3id.org/citizenship/v1";
                      JStr "https://w3id.org/security/bbs/v1"]);
   ("type", JArr [JStr "VerifiableCredential"; JStr "PermanentResidentCard"]);
   ("@explicit", JBool true);
   ("identifier", JObj []);
   ("issuer", JObj []);
   ("issuanceDate", JObj []);
   ("credentialSubject", JObj subjectFrame)].

(** Stand-ins for the collaborators, used to run the samples: a
    canonicalizer with one statement per member path, a signature scheme
    that tags the data with the key, and a proof derivation that keeps
    the nonce. *)
Fixpoint paths (prefix : string) (doc : JSON) {struct doc} : list string :=
  match doc with
  | JObj members =>
      (fix each (ms : Object) : list string :=
         match ms with
         | [] => []
         | (k, v) :: rest => paths (prefix ++ "/" ++ k) v ++ each rest
         end) members
  | _ => [prefix]
  end.

Definition sampleCollaborators : Collaborators :=
  mkCollaborators (fun doc => Ok (paths "" doc)) issued.

Definition keyedSigner (key : string) : Signer :=
  mkSigner (fun data => Ok (list_byte_of_string key ++ data)).

Definition keyedVerifier : Verifier :=
  mkVerifier (fun publicKey data signature =>
    if String.eqb (string_of_list_byte signature)
                  (string_of_list_byte (PublicKey_Value publicKey ++ data))
    then Ok tt
    else Err (errors_New "signature verification failed")).

Definition singleKey (key keyType : string) : PublicKeyFetcher :=
  fun _ _ => Ok (mkPublicKey keyType (list_byte_of_string key)).

(** A stand-in for the processor: the identifiers a few type tags expand
    to, and a compaction that writes an array of such tags back in the
    order of the expanded identifiers and leaves every other value as it
    is. *)
Definition expandedTerms : list (string * string) :=
  [("VerifiableCredential", "https://www.w3.org/2018/credentials#VerifiableCredential");
   ("PermanentResidentCard", "https://w3id.org/citizenship#PermanentResidentCard");
   ("PermanentResident", "https://w3id.org/citizenship#PermanentResident");
   ("Person", "http://schema.org/Person")].

Fixpoint expand (terms : list (string * string)) (term : string) : option string :=
  match terms with
  | [] => None
  | (t, iri) :: rest => if String.eqb t term then Some iri else expand rest term
  end.

Definition expandedTag (item : JSON) : option string :=
  match item with
  | JStr term => expand expandedTerms term
  | _ => None
  end.

Fixpoint insertTag (iri : string) (item : JSON) (sorted : list (string * JSON))
  : list (string * JSON) :=
  match sorted with
  | [] => [(iri, item)]
  | (iri', item') :: rest =>
      if String.leb iri iri' then (iri, item) :: sorted
      else (iri', item') :: insertTag iri item rest
  end.

Fixpoint sortTags (items : list JSON) : option (list (string * JSON)) :=
  match items with
  | [] => Some []
  | item :: rest =>
      match expandedTag item, sortTags rest with
      | Some iri, Some sorted => Some (insertTag iri item sorted)
      | _, _ => None
      end
  end.

Definition sampleProcessor : Processor :=
  mkProcessor (fun value =>
    match value with
    | JArr items =>
        match sortTags items with
        | Some sorted => JArr (map snd sorted)
        | None => value
        end
    | _ => value
    end).

Definition sampleBBS : BBS :=
  mkBBS (fun _ signature nonce _ _ => Ok (signature ++ nonce)).

Definition ed25519Context (signer : Signer) (verificationMethod : string)
  : LinkedDataProofContext :=
  mkLinkedDataProofContext "Ed25519Signature2018"
    (ed25519signature2018.New (Some signer) None) SignatureJWS
    (Some issued) verificationMethod "" "" "".

Definition jwsContext (signer : Signer) (verificationMethod : string)
  : LinkedDataProofContext :=
  mkLinkedDataProofContext "JsonWebSignature2020"
    (jsonwebsignature2020.New (Some signer) None) SignatureJWS
    (Some issued) verificationMethod "" "" "".

Definition bbsContext (signer : Signer) (verificationMethod : string)
  : LinkedDataProofContext :=
  mkLinkedDataProofContext "BbsBlsSignature2020"
    (bbsblssignature2020.New (Some signer) None) SignatureProofValue
    (Some issued) verificationMethod "" "" "".

(** The resident card after the two [AddLinkedDataProof] calls of the
    selective-disclosure example. *)
Definition signedResidentCard : result Credential :=
  signed <- Credential_AddLinkedDataProof sampleCollaborators (residentCard [])
              (ed25519Context (keyedSigner "issuer") "did:example:123456#key1") ;;
  Credential_AddLinkedDataProof sampleCollaborators signed
    (bbsContext (keyedSigner "bbs") "did:example:123456#key1").

(** The key fetcher of the multi-proof example: one key per key id. *)
Definition twoKeys : PublicKeyFetcher :=
  fun _ keyID =>
    if String.eqb keyID "#key1"
    then Ok (mkPublicKey "Ed25519Signature2018" (list_byte_of_string "issuer"))
    else if String.eqb keyID "#key2"
    then Ok (mkPublicKey "JwsVerificationKey2020" (list_byte_of_string "ecdsa"))
    else Err (errors_New "unsupported keyID").

Definition verifyingSuites : list SignatureSuite :=
  [ed25519signature2018.New None (Some keyedVerifier);
   jsonwebsignature2020.New None (Some keyedVerifier)].

(** The first proof of the multi-proof example, as [AddLinkedDataProof]
    builds it on the degree credential. *)
Definition firstProof : Proof :=
  Eval vm_compute in
    match addProof sampleCollaborators (Credential_fields (degreeCredential [])) []
            (ed25519Context (keyedSigner "issuer") "did:example:123456#key1") with
    | Ok [proof] => proof
    | _ => []
    end.

Definition onceSigned : Credential :=
  set_Credential_Proofs (degreeCredential []) [firstProof].

(** The BBS+ proof of the selective-disclosure example. *)
Definition bbsProof : Proof :=
  Eval vm_compute in
    match addProof sampleCollaborators (Credential_fields (residentCard [])) []
            (bbsContext (keyedSigner "bbs") "did:example:123456#key1") with
    | Ok [proof] => proof
    | _ => []
    end.

Definition nonce : bytes := list_byte_of_string "some nonce".

End verifiable_test.

(** ** Sample documents and a sample agent *)
Module examples.
Import command.

Definition authMethod (id : string) : did.VerificationMethod :=
  did.mkVerificationMethod (did.mkPublicKey id "Ed25519VerificationKey2018").

(** Two authentication methods, no flat public-key list. *)
Definition twoMethods : did.Doc :=
  did.mkDoc "did:example:123456" []
    [authMethod "did:example:123456#key1"; authMethod "did:example:123456#key2"].

(** Two authentication methods, the first with an empty id, and one
    flat public key. *)
Definition emptyFirstID : did.Doc :=
  did.mkDoc "did:example:123456"
    [did.mkPublicKey "did:example:123456#key0" "Ed25519VerificationKey2018"]
    [authMethod ""; authMethod "did:example:123456#key2"].

(** A flat list whose only Ed25519 key has an empty id and is not first. *)
Definition emptyEd25519ID : did.Doc :=
  did.mkDoc "did:example:123456"
    [did.mkPublicKey "did:example:123456#rsa" "RsaVerificationKey2018";
     did.mkPublicKey "" "Ed25519VerificationKey2018"]
    [].

(** A flat list with a relative Ed25519 key id after another key. *)
Definition relativeKeyID : did.Doc :=
  did.mkDoc "did:example:123456"
    [did.mkPublicKey "did:example:123456#rsa" "RsaVerificationKey2018";
     did.mkPublicKey "#key1" "Ed25519VerificationKey2018"]
    [authMethod "did:example:123456#key1"].

Definition authOnly : did.Doc :=
  did.mkDoc "did:example:123456" [] [authMethod "did:example:123456#key1"].

Definition noKeys : did.Doc := did.mkDoc "did:example:123456" [] [].

Definition samplePresentation (holder : string) : verifiable.Presentation :=
  verifiable.mkPresentation
    ["https://www.w3.org/2018/credentials/v1"] "" ["VerifiablePresentation"]
    [] holder [].

Definition sampleCredential : verifiable.Credential :=
  verifiable.mkCredential
    ["https://www.w3.org/2018/credentials/v1"]
    "http://example.edu/credentials/1872"
    ["VerifiableCredential"]
    (verifiable.JObj [("id", verifiable.JStr "did:example:ebfeb1f712ebc6f1c276e12ec21")])
    (verifiable.mkIssuer "did:example:76e12ec712ebc6f1c221ebfeb1f" [])
    (Some 1262373804%Z) None [] [] [].

(** An agent whose key manager holds [key1], whose crypto signs by
    echoing the data, and whose registry knows [twoMethods]. *)
Definition agent : Command :=
  mkCommand
    (mkVerifiableStore (fun _ => Ok sampleCredential))
    (mkDIDStore (fun id => if String.eqb id "did:example:123456"
                           then Ok relativeKeyID
                           else Err (errors_New "did not found")))
    (mkProvider
       (mkRegistry (fun id => if String.eqb id "did:example:123456"
                              then Ok twoMethods
                              else Err (errors_New "did not found")))
       (mkKeyManager (fun keyID => if String.eqb keyID "key1" then Ok 1
                                   else Err (errors_New "key not found")))
       (mkCrypto (fun data _ => Ok data)))
    (verifiable.mkPackage
       (fun _ => Ok (samplePresentation ""))
       (fun vp vcs =>
          Ok (verifiable.mkPresentation
                (verifiable.Presentation_Context vp)
                (verifiable.Presentation_ID vp)
                (verifiable.Presentation_Type vp)
                (map verifiable.Credential_MarshalJSON vcs)
                (verifiable.Holder vp) (verifiable.Proofs vp)))
       (fun vp => Ok (list_byte_of_string (verifiable.Holder vp)))
       (fun _ _ => Ok sampleCredential)
       (fun _ => Ok (samplePresentation "did:example:someone-else"))
       (verifiable.mkCollaborators (fun _ => Ok ["statement"]) 0%Z)).

Definition sampleOptions (verificationMethod signatureType : string) : ProofOptions :=
  mkProofOptions verificationMethod signatureType (Some 1262373804%Z)
    "example.com" "challenge-1" "".

End examples.

(** ** The handlers that save to the store *)
Module handlers.
Import command.

Definition errEmptyCredentialName : string := "credential name is mandatory".
Definition errEmptyPresentationName : string := "presentation name is mandatory".

(** The requests of the two handlers: the document and the name to save
    it under. *)
Record CredentialExt : Type := mkCredentialExt {
  VerifiableCredential : string;
  CredentialExt_Name : string
}.

Record PresentationExt : Type := mkPresentationExt {
  VerifiablePresentation : bytes;
  PresentationExt_Name : string
}.

(** [verifiablestore.Store], as far as the two handlers use it: a save
    leaves the store in a new state and may return an error. *)
Record Storage (St : Type) : Type := mkStorage {
  store_SaveCredential : St -> string -> verifiable.Credential -> St * option error;
  store_SavePresentation : St -> string -> verifiable.Presentation -> St * option error
}.
Arguments store_SaveCredential {St} _ _ _ _.
Arguments store_SavePresentation {St} _ _ _ _.

(** The parsers of [pkg/doc/verifiable] the two handlers call:
    [NewUnverifiedCredential], and [NewPresentation] with the proof check
    disabled. *)
Record Parsers : Type := mkParsers {
  NewUnverifiedCredential : bytes -> result verifiable.Credential;
  NewPresentation : bytes -> result verifiable.Presentation
}.

(** What a saving handler leaves behind: the empty response it wrote, or
    the [command.Error] it returned. *)
Inductive reply : Type :=
| WroteNil
| Failed (code : Code) (e : error).

(** [SaveCredential] on the outcome of decoding the request: the state it
    leaves the store in, and its reply. *)
Definition SaveCredential {St : Type} (store : Storage St) (parsers : Parsers)
    (s : St) (req : result CredentialExt) : St * reply :=
  match req with
  | Err e => (s, Failed InvalidRequestErrorCode (Errorf_w "request decode : %w" e))
  | Ok request =>
      if String.eqb (CredentialExt_Name request) "" then
        (s, Failed SaveCredentialErrorCode (errors_New errEmptyCredentialName))
      else
        match NewUnverifiedCredential parsers
                (list_byte_of_string (VerifiableCredential request)) with
        | Err e => (s, Failed SaveCredentialErrorCode (Errorf_w "parse vc : %w" e))
        | Ok vc =>
            match store_SaveCredential store s (CredentialExt_Name request) vc with
            | (s', Some e) =>
                (s', Failed SaveCredentialErrorCode (Errorf_w "save vc : %w" e))
            | (s', None) => (s', WroteNil)
            end
        end
  end.

(** [SavePresentation] on the outcome of decoding the request. *)
Definition SavePresentation {St : Type} (store : Storage St) (parsers : Parsers)
    (s : St) (req : result PresentationExt) : St * reply :=
  match req with
  | Err e => (s, Failed InvalidRequestErrorCode (Errorf_w "request decode : %w" e))
  | Ok request =>
      if String.eqb (PresentationExt_Name request) "" then
        (s, Failed SavePresentationErrorCode (errors_New errEmptyPresentationName))
      else
        match NewPresentation parsers (VerifiablePresentation request) with
        | Err e => (s, Failed SavePresentationErrorCode (Errorf_w "parse vp : %w" e))
        | Ok vp =>
            match store_SavePresentation store s (PresentationExt_Name request) vp with
            | (s', Some e) =>
                (s', Failed SavePresentationErrorCode (Errorf_w "save vp : %w" e))
            | (s', None) => (s', WroteNil)
            end
        end
  end.

(** A store for the samples: the list of what was saved, newest first. *)
Definition listStore : Storage (list string) :=
  mkStorage (list string)
    (fun s name _ => (name :: s, None))
    (fun s name _ => (name :: s, None)).

Definition sampleParsers : Parsers :=
  mkParsers (fun _ => Ok examples.sampleCredential)
            (fun _ => Ok (examples.samplePresentation "")).

End handlers.

(** ** The helpers of the selective-disclosure example *)
Module example_helpers.
Import verifiable.

(** A Go [interface{}] read out of a proof map: [nil] when the key is
    absent. *)
Definition index (proof : Proof) (key : string) : JSON :=
  match lookup key proof with
  | Some v => v
  | None => JNull
  end.

(** [hideProofValue] works on the proof map it is handed: the first
    component is the state it leaves the map in, the second the value it
    returns. *)
Definition hideProofValue (proof : Proof) (dummyValue : string) : Proof * JSON :=
  let oldProofValue := index proof "proofValue" in
  (setMember "proofValue"
     (JStr (base64.StdEncoding_EncodeToString (list_byte_of_string dummyValue)))
     proof,
   oldProofValue).

(** [restoreProofValue]: the state it leaves the proof map in. *)
Definition restoreProofValue (proof : Proof) (proofValue : JSON) : Proof :=
  setMember "proofValue" proofValue proof.

End example_helpers.

(** ** More vocabulary: commands and requests that differ in one part *)
Module variants.
Import command.

Definition with_registry (o : Command) (registry : Registry) : Command :=
  mkCommand (verifiableStore o) (didStore o)
    (mkProvider registry (KMS (ctx o)) (provider_Crypto (ctx o))) (pkg o).

Definition with_didStore (o : Command) (store : didstore_Store) : Command :=
  mkCommand (verifiableStore o) store (ctx o) (pkg o).

Definition with_Presentation (request : PresentationRequest) (presentation : bytes)
  : PresentationRequest :=
  mkPresentationRequest (VerifiableCredentials request) presentation (DID request)
    (request_ProofOptions request) (SkipVerify request).

(** The options [prepareOpts] starts from: the caller's, or fresh ones. *)
Definition supplied (opts : option ProofOptions) : ProofOptions :=
  match opts with
  | Some o => o
  | None => emptyProofOptions
  end.

Definition supportedSuite (signatureType : string) : Prop :=
  signatureType = Ed25519Signature2018 \/ signatureType = JSONWebSignature2020.

End variants.

(** * Properties *)

Import command props variants.

(** ** Splitting on a byte *)

Lemma Split_length (s : string) (sep : ascii) :
  List.length (strings.Split s sep) = S (strings.Count s sep).
Proof.
  induction s as [|c s IH]; simpl; [reflexivity|].
  destruct (Ascii.eqb c sep); simpl.
  - now rewrite IH.
  - destruct (strings.Split s sep) as [|piece pieces]; simpl in *; [discriminate|].
    exact IH.
Qed.

Lemma Split_no_separator (s : string) (sep : ascii) :
  strings.Count s sep = 0 -> strings.Split s sep = [s].
Proof.
  induction s as [|c s IH]; simpl; [reflexivity|].
  destruct (Ascii.eqb c sep); simpl; [discriminate|].
  intros H. now rewrite (IH H).
Qed.

Lemma Split_at_separator (a b : string) (sep : ascii) :
  strings.Count a sep = 0 ->
  strings.Split (a ++ String sep b) sep = a :: strings.Split b sep.
Proof.
  induction a as [|c a IH]; simpl.
  - intros _. now rewrite Ascii.eqb_refl.
  - destruct (Ascii.eqb c sep); simpl; [discriminate|].
    intros H. now rewrite (IH H).
Qed.

Lemma Count_one_decompose (s : string) (sep : ascii) :
  strings.Count s sep = 1 ->
  exists a b, s = (a ++ String sep b)%string
              /\ strings.Count a sep = 0 /\ strings.Count b sep = 0.
Proof.
  induction s as [|c s IH]; simpl; [discriminate|].
  destruct (Ascii.eqb c sep) eqn:E; simpl.
  - intros H. apply Ascii.eqb_eq in E. subst c.
    exists EmptyString, s. repeat split. now injection H.
  - intros H. destruct (IH H) as (a & b & -> & Ha & Hb).
    exists (String c a), b. simpl. rewrite E. now repeat split.
Qed.

(** ** The scan over the authentication methods *)

Lemma scanAuthVMs_requested (authVMs : list did.VerificationMethod)
    (requested : string) (vmMatched : bool) :
  requested <> "" ->
  scanAuthVMs authVMs requested vmMatched
  = (requested,
     orb vmMatched
         (existsb (String.eqb requested)
            (map (fun vm => did.PublicKey_ID (did.VM_PublicKey vm)) authVMs))).
Proof.
  intros Hne. apply String.eqb_neq in Hne.
  induction authVMs as [|vm rest IH]; simpl.
  - now rewrite orb_false_r.
  - rewrite Hne. simpl.
    destruct (String.eqb requested (did.PublicKey_ID (did.VM_PublicKey vm))); simpl.
    + now rewrite orb_true_r.
    + exact IH.
Qed.

Lemma existsb_eqb_In (x : string) (l : list string) :
  existsb (String.eqb x) l = true <-> In x l.
Proof.
  rewrite existsb_exists. split.
  - intros (y & Hy & E). apply String.eqb_eq in E. now subst.
  - intros H. exists x. split; [exact H | apply String.eqb_refl].
Qed.

Lemma prepareOpts_requested (opts : ProofOptions) (didDoc : did.Doc) :
  VerificationMethod opts <> "" ->
  prepareOpts (Some opts) didDoc
  = (set_proofPurpose opts "authentication",
     if existsb (String.eqb (VerificationMethod opts)) (authIDs didDoc)
     then None else Some errNoMatchingVM).
Proof.
  intros Hne. unfold prepareOpts.
  destruct opts as [vm st cr dom ch pp]; simpl in *.
  rewrite (scanAuthVMs_requested _ _ _ Hne).
  apply String.eqb_neq in Hne. rewrite Hne. simpl.
  fold (authIDs didDoc).
  destruct (existsb (String.eqb vm) (authIDs didDoc)); simpl.
  - reflexivity.
  - reflexivity.
Qed.

Lemma prepareOpts_unrequested (opts : option ProofOptions) (didDoc : did.Doc)
    (vm0 : did.VerificationMethod) (rest : list did.VerificationMethod) :
  match opts with Some o => VerificationMethod o = "" | None => True end ->
  did.Doc_Authentication didDoc = vm0 :: rest ->
  resolved (prepareOpts opts didDoc)
  = if String.eqb (did.PublicKey_ID (did.VM_PublicKey vm0)) ""
    then wrap "failed to get default verification method: %w"
              (getDefaultVerificationMethod didDoc)
    else Ok (did.PublicKey_ID (did.VM_PublicKey vm0)).
Proof.
  intros Hempty Hauth. unfold prepareOpts. simpl.
  assert (E : VerificationMethod
                (match opts with None => emptyProofOptions | Some o => o end) = "").
  { destruct opts; [exact Hempty | reflexivity]. }
  rewrite Hauth. simpl. rewrite E. simpl.
  destruct (String.eqb (did.PublicKey_ID (did.VM_PublicKey vm0)) "") eqn:E0.
  - destruct (getDefaultVerificationMethod didDoc); reflexivity.
  - reflexivity.
Qed.

(** ** Verification-method resolution *)

(** C1.  With no requested method, resolution against a document with
    at least two authentication methods is to return the first-listed
    method's public-key id.  [prepareOpts] does not at [emptyFirstID],
    which has two authentication methods, the first with an empty id,
    and one flat public key: the empty id it has just copied from the
    first method is taken for "still unset", the fallback "kept for DIDs
    not having authentication method" runs, and the id of the flat
    public key is returned. *)
Lemma resolution_first_listed_counterexample :
  2 <= List.length (did.Doc_Authentication examples.emptyFirstID)
  /\ hd_error (authIDs examples.emptyFirstID) = Some ""
  /\ resolve examples.emptyFirstID "" = Ok "did:example:123456#key0"
  /\ ~ (forall didDoc firstID,
          2 <= List.length (did.Doc_Authentication didDoc) ->
          hd_error (authIDs didDoc) = Some firstID ->
          resolve didDoc "" = Ok firstID).
Proof.
  split; [simpl; lia|].
  split; [reflexivity|].
  split; [reflexivity|].
  intros H.
  assert (E : resolve examples.emptyFirstID "" = Ok "").
  { apply H; [simpl; lia | reflexivity]. }
  discriminate E.
Qed.

(** X16.  For every identity document with at least two authentication
    methods whose first-listed method has a non-empty public-key id:
    resolving with an empty requested id (or no options at all) returns
    that first-listed id; resolving with a non-empty requested id that is
    the public-key id of a listed method returns the requested id; and
    resolving with a non-empty requested id that no listed method has
    fails with the no-matching-verification-method error. *)
Theorem resolution_deterministic
    (opts : option ProofOptions) (didDoc : did.Doc)
    (first : did.VerificationMethod) (others : list did.VerificationMethod)
    (Hauth : did.Doc_Authentication didDoc = first :: others)
    (Htwo : 2 <= List.length (did.Doc_Authentication didDoc))
    (Hfirst : did.PublicKey_ID (did.VM_PublicKey first) <> "") :
  let firstID := did.PublicKey_ID (did.VM_PublicKey first) in
  let requested := match opts with
                   | Some o => VerificationMethod o
                   | None => ""
                   end in
  (requested = "" -> resolved (prepareOpts opts didDoc) = Ok firstID)
  /\ (requested <> "" -> In requested (authIDs didDoc) ->
      resolved (prepareOpts opts didDoc) = Ok requested)
  /\ (requested <> "" -> ~ In requested (authIDs didDoc) ->
      resolved (prepareOpts opts didDoc) = Err errNoMatchingVM).
Proof.
  intros firstID requested.
  assert (Hre : requested <> "" ->
                resolved (prepareOpts opts didDoc)
                = if existsb (String.eqb requested) (authIDs didDoc)
                  then Ok requested else Err errNoMatchingVM).
  { intros Hreq. destruct opts as [o|]; [|now elim Hreq].
    subst requested. rewrite (prepareOpts_requested o didDoc Hreq).
    destruct (existsb _ _); reflexivity. }
  split; [|split].
  - intros Hreq.
    rewrite (prepareOpts_unrequested opts didDoc first others).
    + apply String.eqb_neq in Hfirst. now rewrite Hfirst.
    + destruct opts; [exact Hreq | exact I].
    + exact Hauth.
  - intros Hreq Hin. rewrite (Hre Hreq).
    apply existsb_eqb_In in Hin. now rewrite Hin.
  - intros Hreq Hnin. rewrite (Hre Hreq).
    destruct (existsb (String.eqb requested) (authIDs didDoc)) eqn:E; [|reflexivity].
    apply existsb_eqb_In in E. contradiction.
Qed.

Lemma resolution_deterministic_witness :
  resolved (prepareOpts None examples.twoMethods) = Ok "did:example:123456#key1"
  /\ resolved (prepareOpts
                 (Some (examples.sampleOptions "did:example:123456#key2" "Ed25519Signature2018"))
                 examples.twoMethods) = Ok "did:example:123456#key2"
  /\ resolved (prepareOpts
                 (Some (examples.sampleOptions "did:example:123456#key9" "Ed25519Signature2018"))
                 examples.twoMethods) = Err errNoMatchingVM.
Proof.
  assert (Htwo : 2 <= List.length (did.Doc_Authentication examples.twoMethods))
    by (simpl; lia).
  assert (Hfirst : did.PublicKey_ID
                     (did.VM_PublicKey (examples.authMethod "did:example:123456#key1"))
                   <> "") by discriminate.
  split; [|split].
  - apply (proj1 (resolution_deterministic None examples.twoMethods
                    (examples.authMethod "did:example:123456#key1")
                    [examples.authMethod "did:example:123456#key2"]
                    eq_refl Htwo Hfirst)). reflexivity.
  - apply (proj1 (proj2 (resolution_deterministic
             (Some (examples.sampleOptions "did:example:123456#key2" "Ed25519Signature2018"))
             examples.twoMethods
             (examples.authMethod "did:example:123456#key1")
             [examples.authMethod "did:example:123456#key2"]
             eq_refl Htwo Hfirst))); [discriminate | simpl; auto].
  - apply (proj2 (proj2 (resolution_deterministic
             (Some (examples.sampleOptions "did:example:123456#key9" "Ed25519Signature2018"))
             examples.twoMethods
             (examples.authMethod "did:example:123456#key1")
             [examples.authMethod "did:example:123456#key2"]
             eq_refl Htwo Hfirst))); [discriminate |].
    simpl. intros [H|[H|[]]]; discriminate H.
Defined.

(** ** The default verification method *)

Lemma firstEd25519KeyID_find (keys : list did.PublicKey) :
  firstEd25519KeyID keys
  = match find isEd25519Key keys with
    | Some k => did.PublicKey_ID k
    | None => ""
    end.
Proof.
  induction keys as [|k rest IH]; simpl; [reflexivity|].
  unfold isEd25519Key at 1.
  destruct (strings.HasPrefix (did.PublicKey_Type k) Ed25519VerificationKey);
    [reflexivity | exact IH].
Qed.

Lemma getDefaultVerificationMethod_chosen (didDoc : did.Doc)
    (k0 : did.PublicKey) (rest : list did.PublicKey) :
  did.Doc_PublicKey didDoc = k0 :: rest ->
  getDefaultVerificationMethod didDoc = Ok (qualified didDoc (chosenDefaultKey k0 rest)).
Proof.
  intros Hkeys. unfold getDefaultVerificationMethod, qualified, chosenDefaultKey.
  rewrite Hkeys. rewrite firstEd25519KeyID_find.
  destruct (find isEd25519Key (k0 :: rest)) as [k|].
  - destruct (String.eqb (did.PublicKey_ID k) "");
      destruct (isDID _); reflexivity.
  - simpl. destruct (isDID _); reflexivity.
Qed.

(** C2.  For a non-empty flat public-key list the default method is to
    be the first key whose type begins with [Ed25519VerificationKey],
    qualified by the document id when its id is not a DID, and the first
    key of the list only when there is no such key.
    [getDefaultVerificationMethod] does not at [emptyEd25519ID], whose
    second key is an Ed25519 key with an empty id: the empty id the loop
    has just picked is taken for "there isn't any ed25519 key" and the
    first key of the list, an RSA key, is returned. *)
Lemma default_method_counterexample :
  did.Doc_PublicKey examples.emptyEd25519ID
  = [did.mkPublicKey "did:example:123456#rsa" "RsaVerificationKey2018";
     did.mkPublicKey "" "Ed25519VerificationKey2018"]
  /\ getDefaultVerificationMethod examples.emptyEd25519ID = Ok "did:example:123456#rsa"
  /\ qualified examples.emptyEd25519ID
       (specDefaultKey (did.mkPublicKey "did:example:123456#rsa" "RsaVerificationKey2018")
                       [did.mkPublicKey "" "Ed25519VerificationKey2018"])
     = "did:example:123456"
  /\ ~ (forall didDoc k0 rest,
          did.Doc_PublicKey didDoc = k0 :: rest ->
          getDefaultVerificationMethod didDoc
          = Ok (qualified didDoc (specDefaultKey k0 rest))).
Proof.
  split; [reflexivity|].
  split; [reflexivity|].
  split; [reflexivity|].
  intros H.
  specialize (H examples.emptyEd25519ID _ _ eq_refl).
  discriminate H.
Qed.

(** X17.  For every identity document whose flat public-key list is
    non-empty and has no Ed25519 key with an empty id in front of the
    others of its kind (the first key whose type begins with
    [Ed25519VerificationKey], if there is one, has a non-empty id), the
    default method is that first Ed25519 key, else the first key of the
    list, returned as it is when its id starts with [did:] and prefixed
    with the document id when it does not.  When the flat list is empty
    the first authentication method's public-key id is returned, and
    when the authentication relationship is empty as well the call fails
    with the public-key-not-found error. *)
Theorem default_method_fallback (didDoc : did.Doc) :
  (forall k0 rest,
      did.Doc_PublicKey didDoc = k0 :: rest ->
      (forall k, find isEd25519Key (k0 :: rest) = Some k -> did.PublicKey_ID k <> "") ->
      getDefaultVerificationMethod didDoc
      = Ok (qualified didDoc (specDefaultKey k0 rest)))
  /\ (forall vm0 others,
         did.Doc_PublicKey didDoc = [] ->
         did.Doc_Authentication didDoc = vm0 :: others ->
         getDefaultVerificationMethod didDoc
         = Ok (did.PublicKey_ID (did.VM_PublicKey vm0)))
  /\ (did.Doc_PublicKey didDoc = [] ->
      did.Doc_Authentication didDoc = [] ->
      getDefaultVerificationMethod didDoc = Err errNoPublicKey).
Proof.
  split; [|split].
  - intros k0 rest Hkeys Hids.
    rewrite (getDefaultVerificationMethod_chosen didDoc k0 rest Hkeys).
    unfold chosenDefaultKey, specDefaultKey.
    destruct (find isEd25519Key (k0 :: rest)) as [k|] eqn:Efind; [|reflexivity].
    specialize (Hids k eq_refl). apply String.eqb_neq in Hids. now rewrite Hids.
  - intros vm0 others Hkeys Hauth. unfold getDefaultVerificationMethod.
    now rewrite Hkeys, Hauth.
  - intros Hkeys Hauth. unfold getDefaultVerificationMethod.
    now rewrite Hkeys, Hauth.
Qed.

Lemma default_method_fallback_witness :
  getDefaultVerificationMethod examples.relativeKeyID = Ok "did:example:123456#key1"
  /\ getDefaultVerificationMethod examples.authOnly = Ok "did:example:123456#key1"
  /\ getDefaultVerificationMethod examples.noKeys = Err errNoPublicKey.
Proof.
  split; [|split].
  - apply (proj1 (default_method_fallback examples.relativeKeyID) _ _ eq_refl).
    intros k Hk. injection Hk as <-. discriminate.
  - exact (proj1 (proj2 (default_method_fallback examples.authOnly)) _ _ eq_refl eq_refl).
  - exact (proj2 (proj2 (default_method_fallback examples.noKeys)) eq_refl eq_refl).
Defined.

(** ** The frame of [prepareOpts] *)

(** C8.  Whatever options object the caller hands to [prepareOpts] and
    whether the call succeeds or fails, the object keeps its signature
    type, created, domain and challenge, and its proof purpose is set to
    [authentication].  A non-empty verification method stays exactly as
    supplied, and the call then succeeds precisely when that method is the
    public-key id of a listed authentication method, failing with the
    no-matching-verification-method error otherwise; so the verification
    method changes only when it was empty. *)
Theorem prepareOpts_frame (opts : ProofOptions) (didDoc : did.Doc) :
  let after := fst (prepareOpts (Some opts) didDoc) in
  let err := snd (prepareOpts (Some opts) didDoc) in
  SignatureType after = SignatureType opts
  /\ Created after = Created opts
  /\ Domain after = Domain opts
  /\ Challenge after = Challenge opts
  /\ proofPurpose after = "authentication"
  /\ (VerificationMethod opts <> "" ->
      VerificationMethod after = VerificationMethod opts
      /\ (In (VerificationMethod opts) (authIDs didDoc) -> err = None)
      /\ (~ In (VerificationMethod opts) (authIDs didDoc) -> err = Some errNoMatchingVM))
  /\ (VerificationMethod after <> VerificationMethod opts ->
      VerificationMethod opts = "").
Proof.
  intros after err.
  assert (Hframe : SignatureType after = SignatureType opts
                   /\ Created after = Created opts
                   /\ Domain after = Domain opts
                   /\ Challenge after = Challenge opts
                   /\ proofPurpose after = "authentication").
  { subst after. unfold prepareOpts.
    destruct (scanAuthVMs _ _ _) as [vm matched].
    destruct (negb matched); [simpl; auto|].
    destruct (String.eqb _ _); [|simpl; auto].
    destruct (getDefaultVerificationMethod didDoc); simpl; auto. }
  assert (Hvm : VerificationMethod opts <> "" ->
                VerificationMethod after = VerificationMethod opts
                /\ (In (VerificationMethod opts) (authIDs didDoc) -> err = None)
                /\ (~ In (VerificationMethod opts) (authIDs didDoc) ->
                    err = Some errNoMatchingVM)).
  { intros Hne. subst after err. rewrite (prepareOpts_requested opts didDoc Hne).
    simpl. split; [reflexivity|]. split.
    - intros Hin. apply existsb_eqb_In in Hin. now rewrite Hin.
    - intros Hnin.
      destruct (existsb (String.eqb (VerificationMethod opts)) (authIDs didDoc)) eqn:E;
        [|reflexivity].
      apply existsb_eqb_In in E. contradiction. }
  destruct Hframe as (H1 & H2 & H3 & H4 & H5).
  repeat (split; [assumption|]).
  intros Hchanged.
  destruct (String.eqb (VerificationMethod opts) "") eqn:E.
  - now apply String.eqb_eq in E.
  - apply String.eqb_neq in E. destruct (Hvm E) as [Hsame _]. contradiction.
Qed.

Lemma prepareOpts_frame_witness :
  let opts := examples.sampleOptions "did:example:123456#key2" "Ed25519Signature2018" in
  VerificationMethod (fst (prepareOpts (Some opts) examples.twoMethods))
  = "did:example:123456#key2"
  /\ snd (prepareOpts (Some opts) examples.twoMethods) = None.
Proof.
  intros opts.
  destruct (prepareOpts_frame opts examples.twoMethods)
    as (_ & _ & _ & _ & _ & Hvm & _).
  destruct Hvm as (Hsame & Hin & _); [discriminate|].
  split; [exact Hsame|].
  apply Hin. simpl. auto.
Defined.

(** ** The KMS signer and the suite selection *)

Lemma newKMSSigner_wrong_id (keyManager : KeyManager) (c : Crypto) (creator : string) :
  strings.Count creator "#" <> 1 ->
  newKMSSigner keyManager c creator = Err (errWrongID creator).
Proof.
  intros Hcount. unfold newKMSSigner, errWrongID, creatorParts.
  rewrite Split_length.
  destruct (Nat.eqb (S (strings.Count creator "#")) 2) eqn:E; [|reflexivity].
  apply Nat.eqb_eq in E. lia.
Qed.

Lemma newKMSSigner_fragment (keyManager : KeyManager) (c : Crypto)
    (didID keyID : string) :
  strings.Count didID "#" = 0 ->
  strings.Count keyID "#" = 0 ->
  newKMSSigner keyManager c (didID ++ String "#" keyID)
  = (keyHandler <- Get keyManager keyID ;; Ok (mkKMSSigner keyHandler c)).
Proof.
  intros Hdid Hkey. unfold newKMSSigner.
  rewrite (Split_at_separator _ _ _ Hdid), (Split_no_separator _ _ Hkey).
  reflexivity.
Qed.

(** C9.  The verification method handed to [addLinkedDataProof] has to
    split on [#] into exactly two parts.  When it holds no [#] or more
    than one, building the KMS signer fails with the wrong-id error, and
    [addLinkedDataProof] returns that error for every signature type and
    leaves the presentation as it was: no suite is selected and no proof
    is built.  When it holds exactly one [#] it is [didID#keyID], the key
    manager is asked for [keyID] alone, and the signer holds the handle
    the key manager returns (or the key manager's error is returned). *)
Theorem signer_needs_two_part_id (o : Command) (vp : verifiable.Presentation)
    (opts : ProofOptions) :
  let creator := VerificationMethod opts in
  (List.length (strings.Split creator "#") = 2 <-> strings.Count creator "#" = 1)
  /\ (strings.Count creator "#" <> 1 ->
      newKMSSigner (KMS (ctx o)) (provider_Crypto (ctx o)) creator
      = Err (errWrongID creator)
      /\ addLinkedDataProof o vp opts = (vp, Some (errWrongID creator)))
  /\ (strings.Count creator "#" = 1 ->
      exists didID keyID,
        creator = (didID ++ String "#" keyID)%string
        /\ strings.Count didID "#" = 0 /\ strings.Count keyID "#" = 0
        /\ newKMSSigner (KMS (ctx o)) (provider_Crypto (ctx o)) creator
           = match Get (KMS (ctx o)) keyID with
             | Ok keyHandler => Ok (mkKMSSigner keyHandler (provider_Crypto (ctx o)))
             | Err e => Err e
             end).
Proof.
  intros creator. split; [|split].
  - rewrite Split_length. lia.
  - intros Hcount.
    pose proof (newKMSSigner_wrong_id (KMS (ctx o)) (provider_Crypto (ctx o))
                  creator Hcount) as E.
    split; [exact E|].
    unfold addLinkedDataProof. fold creator. now rewrite E.
  - intros Hcount.
    destruct (Count_one_decompose _ _ Hcount) as (didID & keyID & E & Hdid & Hkey).
    exists didID, keyID. repeat (split; [assumption|]).
    rewrite E. exact (newKMSSigner_fragment _ _ _ _ Hdid Hkey).
Qed.

Lemma signer_needs_two_part_id_witness :
  addLinkedDataProof examples.agent (examples.samplePresentation "")
    (examples.sampleOptions "did:example:123456" "Ed25519Signature2018")
  = (examples.samplePresentation "", Some (errWrongID "did:example:123456"))
  /\ exists didID keyID,
       "did:example:123456#key1" = (didID ++ String "#" keyID)%string
       /\ strings.Count didID "#" = 0 /\ strings.Count keyID "#" = 0
       /\ newKMSSigner (KMS (ctx examples.agent)) (provider_Crypto (ctx examples.agent))
            "did:example:123456#key1"
          = match Get (KMS (ctx examples.agent)) keyID with
            | Ok keyHandler =>
                Ok (mkKMSSigner keyHandler (provider_Crypto (ctx examples.agent)))
            | Err e => Err e
            end.
Proof.
  split.
  - apply (proj1 (proj2 (signer_needs_two_part_id examples.agent
                           (examples.samplePresentation "")
                           (examples.sampleOptions "did:example:123456"
                              "Ed25519Signature2018")))).
    simpl. discriminate.
  - apply (proj2 (proj2 (signer_needs_two_part_id examples.agent
                           (examples.samplePresentation "")
                           (examples.sampleOptions "did:example:123456#key1"
                              "Ed25519Signature2018")))).
    reflexivity.
Defined.

(** C3, as the specification states it: every request that names an
    unknown suite would get the unsupported-suite error.  A request that
    names ["NotASuite"] with a verification method without [#] gets the
    wrong-id error of the signer construction, which comes first. *)
Lemma unsupported_suite_counterexample :
  let opts := examples.sampleOptions "did:example:123456" "NotASuite" in
  SignatureType opts <> Ed25519Signature2018
  /\ SignatureType opts <> JSONWebSignature2020
  /\ snd (addLinkedDataProof examples.agent (examples.samplePresentation "") opts)
     = Some (Errorf_strs "wrong id %s to resolve" ["did:example:123456"])
  /\ snd (addLinkedDataProof examples.agent (examples.samplePresentation "") opts)
     <> Some (errUnsupportedSuite "NotASuite").
Proof.
  intros opts.
  split; [discriminate|].
  split; [discriminate|].
  split; [reflexivity | discriminate].
Qed.

(** C3 (amended).  For every signing request whose signature-suite name
    is neither ["Ed25519Signature2018"] nor ["JsonWebSignature2020"],
    [addLinkedDataProof] returns an error and leaves the presentation,
    its proof collection included, exactly as it was; the error is the
    unsupported-suite error whenever the KMS signer could be built (the
    verification method is [didID#keyID] and the key manager has
    [keyID]), and the signer construction's own error otherwise. *)
Theorem unsupported_suite_no_mutation (o : Command) (vp : verifiable.Presentation)
    (opts : ProofOptions)
    (Hed : SignatureType opts <> Ed25519Signature2018)
    (Hjws : SignatureType opts <> JSONWebSignature2020) :
  fst (addLinkedDataProof o vp opts) = vp
  /\ verifiable.Proofs (fst (addLinkedDataProof o vp opts)) = verifiable.Proofs vp
  /\ snd (addLinkedDataProof o vp opts)
     = match newKMSSigner (KMS (ctx o)) (provider_Crypto (ctx o))
               (VerificationMethod opts) with
       | Ok _ => Some (errUnsupportedSuite (SignatureType opts))
       | Err e => Some e
       end.
Proof.
  apply String.eqb_neq in Hed, Hjws.
  unfold addLinkedDataProof.
  destruct (newKMSSigner _ _ _) as [s|e]; simpl.
  - rewrite Hed, Hjws. simpl. auto.
  - auto.
Qed.

Lemma unsupported_suite_no_mutation_witness :
  let opts := examples.sampleOptions "did:example:123456#key1" "NotASuite" in
  fst (addLinkedDataProof examples.agent (examples.samplePresentation "") opts)
  = examples.samplePresentation ""
  /\ snd (addLinkedDataProof examples.agent (examples.samplePresentation "") opts)
     = Some (errUnsupportedSuite "NotASuite").
Proof.
  intros opts.
  destruct (unsupported_suite_no_mutation examples.agent
              (examples.samplePresentation "") opts) as (Hsame & _ & Herr);
    [discriminate | discriminate |].
  split; [exact Hsame | exact Herr].
Defined.

(** ** Presentations and their holder *)

Lemma addProof_appends (c : verifiable.Collaborators) (fields : verifiable.Object)
    (proofs proofs' : list verifiable.Proof) (signingCtx : verifiable.LinkedDataProofContext) :
  verifiable.addProof c fields proofs signingCtx = Ok proofs' ->
  exists proof, proofs' = proofs ++ [proof].
Proof.
  unfold verifiable.addProof, bind.
  destruct (verifiable.canonicalBytes _ _ _) as [message|]; [|discriminate].
  destruct (verifiable.suite_signer _) as [signer|]; [|discriminate].
  destruct (verifiable.Sign signer message) as [signature|]; [|discriminate].
  intros H. injection H as <-. eexists. reflexivity.
Qed.

Lemma addLinkedDataProof_signed (o : Command) (vp signed : verifiable.Presentation)
    (opts : ProofOptions) :
  addLinkedDataProof o vp opts = (signed, None) ->
  exists proof,
    signed = verifiable.set_Proofs vp (verifiable.Proofs vp ++ [proof]).
Proof.
  unfold addLinkedDataProof.
  destruct (newKMSSigner _ _ _) as [s|]; [|discriminate].
  set (signer := Some (verifiable.mkSigner (kmsSigner_Sign s))).
  destruct (if String.eqb (SignatureType opts) Ed25519Signature2018
            then Ok (ed25519signature2018.New signer None)
            else if String.eqb (SignatureType opts) JSONWebSignature2020
                 then Ok (jsonwebsignature2020.New signer None)
                 else Err (Errorf_s "signature type unsupported %s" (SignatureType opts)))
    as [signatureSuite|]; [|discriminate].
  unfold verifiable.AddLinkedDataProof, bind.
  destruct (verifiable.addProof _ _ _ _) as [proofs|] eqn:E; [|discriminate].
  intros H. injection H as <-.
  destruct (addProof_appends _ _ _ _ _ E) as [proof ->].
  now exists proof.
Qed.

Lemma setHolderAndSign_written (o : Command) (vp : verifiable.Presentation)
    (holder : string) (opts : ProofOptions) (out : bytes) :
  setHolderAndSign o vp holder opts = Ok out ->
  exists proof,
    addLinkedDataProof o (verifiable.set_Holder vp holder) opts
    = (verifiable.set_Proofs (verifiable.set_Holder vp holder)
         (verifiable.Proofs vp ++ [proof]), None)
    /\ verifiable.MarshalJSON (pkg o)
         (verifiable.set_Proofs (verifiable.set_Holder vp holder)
            (verifiable.Proofs vp ++ [proof])) = Ok out.
Proof.
  unfold setHolderAndSign.
  destruct (addLinkedDataProof o (verifiable.set_Holder vp holder) opts)
    as [signed [e|]] eqn:E; [discriminate|].
  intros Hout.
  destruct (addLinkedDataProof_signed _ _ _ _ E) as [proof ->].
  exists proof. split; [reflexivity | exact Hout].
Qed.

Lemma createAndSignPresentation_written (o : Command)
    (credentials : list verifiable.Credential) (vp : option verifiable.Presentation)
    (holder : string) (opts : ProofOptions) (out : bytes) :
  createAndSignPresentation o credentials vp holder opts = Returns (Ok out) ->
  exists unsigned proof,
    (vp = Some unsigned
     \/ (vp = None
         /\ exists c0 others vp0,
              credentials = c0 :: others
              /\ verifiable.Credential_Presentation (pkg o) c0 = Ok vp0
              /\ verifiable.SetCredentials (pkg o) vp0 credentials = Ok unsigned))
    /\ addLinkedDataProof o (verifiable.set_Holder unsigned holder) opts
       = (verifiable.set_Proofs (verifiable.set_Holder unsigned holder)
            (verifiable.Proofs unsigned ++ [proof]), None)
    /\ verifiable.MarshalJSON (pkg o)
         (verifiable.set_Proofs (verifiable.set_Holder unsigned holder)
            (verifiable.Proofs unsigned ++ [proof])) = Ok out.
Proof.
  unfold createAndSignPresentation.
  destruct vp as [vp|].
  - intros H. injection H as H.
    destruct (setHolderAndSign_written _ _ _ _ _ H) as (proof & Hadd & Hout).
    exists vp, proof. auto.
  - destruct credentials as [|c0 others]; [discriminate|].
    intros H. injection H as H. unfold bind, wrap in H.
    destruct (verifiable.Credential_Presentation (pkg o) c0) as [vp0|] eqn:E0;
      [|discriminate].
    destruct (verifiable.SetCredentials (pkg o) vp0 (c0 :: others)) as [vp1|] eqn:E1;
      [|discriminate].
    destruct (setHolderAndSign_written _ _ _ _ _ H) as (proof & Hadd & Hout).
    exists vp1, proof. split; [|auto].
    right. split; [reflexivity|]. exists c0, others, vp0. auto.
Qed.

Lemma GeneratePresentation_written (o : Command) (request : PresentationRequest)
    (out : bytes) :
  GeneratePresentation o (Ok request) = Returns (Written out) ->
  exists didDoc credentials presentation opts,
    (Resolve (VDRIRegistry (ctx o)) (DID request) = Ok didDoc
     \/ ((exists e, Resolve (VDRIRegistry (ctx o)) (DID request) = Err e)
         /\ GetDID (didStore o) (DID request) = Ok didDoc))
    /\ parsePresentationRequest o request didDoc
       = Returns (Ok (credentials, presentation, opts))
    /\ createAndSignPresentation o credentials presentation (did.Doc_ID didDoc) opts
       = Returns (Ok out).
Proof.
  unfold GeneratePresentation.
  assert (Hrest : forall didDoc,
             match parsePresentationRequest o request didDoc with
             | Panics msg => Panics msg
             | Returns (Err e) =>
                 Returns
                   (NewValidationError GeneratePresentationErrorCode
                      (Errorf_w "generate vp - parse presentation request: %w" e))
             | Returns (Ok (credentials, presentation, opts)) =>
                 generatePresentation o credentials presentation
                   (did.Doc_ID didDoc) opts
             end = Returns (Written out) ->
             exists credentials presentation opts,
               parsePresentationRequest o request didDoc
               = Returns (Ok (credentials, presentation, opts))
               /\ createAndSignPresentation o credentials presentation
                    (did.Doc_ID didDoc) opts = Returns (Ok out)).
  { intros didDoc.
    destruct (parsePresentationRequest o request didDoc)
      as [[[[credentials presentation] opts]|]|]; [|discriminate|discriminate].
    unfold generatePresentation.
    destruct (createAndSignPresentation _ _ _ _ _) as [[vp|]|] eqn:E;
      [|discriminate|discriminate].
    intros H. injection H as <-.
    exists credentials, presentation, opts. auto. }
  destruct (Resolve (VDRIRegistry (ctx o)) (DID request)) as [didDoc|e] eqn:Eres.
  - intros H. destruct (Hrest didDoc H) as (credentials & presentation & opts & Hp & Hs).
    exists didDoc, credentials, presentation, opts. auto.
  - destruct (GetDID (didStore o) (DID request)) as [didDoc|] eqn:Eget; [|discriminate].
    intros H. destruct (Hrest didDoc H) as (credentials & presentation & opts & Hp & Hs).
    exists didDoc, credentials, presentation, opts.
    split; [right; split; [now exists e | reflexivity]|]. auto.
Qed.

(** C10.  Whenever [GeneratePresentation] writes a presentation, what it
    wrote is the serialization of the presentation it signed, and that
    presentation is the one the request gave rise to (the caller-supplied
    presentation as parsed, or the one built from the parsed credentials)
    with its holder replaced by the id of the identity document that was
    resolved (from the registry, or from the local store when the
    registry fails) and one proof appended: the holder is assigned
    before signing, so the signing call is made on the presentation that
    already carries the new holder.  The same holds of
    [createAndSignPresentation] for the holder it is given.  The
    replacement is unconditional: the holder a caller-supplied
    presentation carried has no effect on what [createAndSignPresentation]
    does or returns.  The stored-credential path never assigns the
    holder: what [createAndSignPresentationByID] returns is the
    serialization of the presentation built from the credential, signed
    as it is with the document's default verification method, with one
    proof appended and the holder it was built with. *)
Theorem holder_always_overwritten (o : Command) :
  (forall request out,
      GeneratePresentation o (Ok request) = Returns (Written out) ->
      exists didDoc credentials presentation opts unsigned proof signed,
        (Resolve (VDRIRegistry (ctx o)) (DID request) = Ok didDoc
         \/ ((exists e, Resolve (VDRIRegistry (ctx o)) (DID request) = Err e)
             /\ GetDID (didStore o) (DID request) = Ok didDoc))
        /\ parsePresentationRequest o request didDoc
           = Returns (Ok (credentials, presentation, opts))
        /\ (presentation = Some unsigned
            \/ (presentation = None
                /\ exists c0 others vp0,
                     credentials = c0 :: others
                     /\ verifiable.Credential_Presentation (pkg o) c0 = Ok vp0
                     /\ verifiable.SetCredentials (pkg o) vp0 credentials
                        = Ok unsigned))
        /\ signed = verifiable.set_Proofs
                      (verifiable.set_Holder unsigned (did.Doc_ID didDoc))
                      (verifiable.Proofs unsigned ++ [proof])
        /\ addLinkedDataProof o
             (verifiable.set_Holder unsigned (did.Doc_ID didDoc)) opts
           = (signed, None)
        /\ verifiable.MarshalJSON (pkg o) signed = Ok out
        /\ verifiable.Holder signed = did.Doc_ID didDoc)
  /\ (forall credentials vp holder opts out,
         createAndSignPresentation o credentials vp holder opts = Returns (Ok out) ->
         exists unsigned proof signed,
           (vp = Some unsigned
            \/ (vp = None
                /\ exists c0 others vp0,
                     credentials = c0 :: others
                     /\ verifiable.Credential_Presentation (pkg o) c0 = Ok vp0
                     /\ verifiable.SetCredentials (pkg o) vp0 credentials
                        = Ok unsigned))
           /\ signed = verifiable.set_Proofs (verifiable.set_Holder unsigned holder)
                         (verifiable.Proofs unsigned ++ [proof])
           /\ addLinkedDataProof o (verifiable.set_Holder unsigned holder) opts
              = (signed, None)
           /\ verifiable.MarshalJSON (pkg o) signed = Ok out
           /\ verifiable.Holder signed = holder)
  /\ (forall credentials vp previous holder opts,
         createAndSignPresentation o credentials
           (Some (verifiable.set_Holder vp previous)) holder opts
         = createAndSignPresentation o credentials (Some vp) holder opts)
  /\ (forall vc didDoc signatureType out,
         createAndSignPresentationByID o vc didDoc signatureType = Ok out ->
         exists pk vp proof signed,
           getDefaultVerificationMethod didDoc = Ok pk
           /\ verifiable.Credential_Presentation (pkg o) vc = Ok vp
           /\ signed = verifiable.set_Proofs vp (verifiable.Proofs vp ++ [proof])
           /\ addLinkedDataProof o vp (mkProofOptions pk signatureType None "" "" "")
              = (signed, None)
           /\ verifiable.MarshalJSON (pkg o) signed = Ok out
           /\ verifiable.Holder signed = verifiable.Holder vp).
Proof.
  split; [|split; [|split]].
  - intros request out Hwritten.
    destruct (GeneratePresentation_written _ _ _ Hwritten)
      as (didDoc & credentials & presentation & opts & Hdoc & Hparse & Hsign).
    destruct (createAndSignPresentation_written _ _ _ _ _ _ Hsign)
      as (unsigned & proof & Hfrom & Hadd & Hout).
    exists didDoc, credentials, presentation, opts, unsigned, proof.
    eexists. split; [exact Hdoc|]. split; [exact Hparse|]. split; [exact Hfrom|].
    split; [reflexivity|]. split; [exact Hadd|]. split; [exact Hout|]. reflexivity.
  - intros credentials vp holder opts out Hsign.
    destruct (createAndSignPresentation_written _ _ _ _ _ _ Hsign)
      as (unsigned & proof & Hfrom & Hadd & Hout).
    exists unsigned, proof. eexists. split; [exact Hfrom|].
    split; [reflexivity|]. split; [exact Hadd|]. split; [exact Hout|]. reflexivity.
  - intros credentials vp previous holder opts. reflexivity.
  - intros vc didDoc signatureType out.
    unfold createAndSignPresentationByID, bind, wrap.
    destruct (getDefaultVerificationMethod didDoc) as [pk|]; [|discriminate].
    destruct (verifiable.Credential_Presentation (pkg o) vc) as [vp|]; [|discriminate].
    destruct (addLinkedDataProof o vp _) as [signed [e|]] eqn:E; [discriminate|].
    intros Hout.
    destruct (addLinkedDataProof_signed _ _ _ _ E) as [proof ->].
    exists pk, vp, proof. eexists. split; [reflexivity|]. split; [reflexivity|].
    split; [reflexivity|]. split; [exact E|]. split; [exact Hout|]. reflexivity.
Qed.

Lemma holder_always_overwritten_witness :
  let request :=
    mkPresentationRequest [] (list_byte_of_string "{}") "did:example:123456"
      (Some (examples.sampleOptions "" "Ed25519Signature2018")) false in
  verifiable.NewUnverifiedPresentation (pkg examples.agent) (Presentation request)
  = Ok (examples.samplePresentation "did:example:someone-else")
  /\ GeneratePresentation examples.agent (Ok request)
     = Returns (Written (list_byte_of_string "did:example:123456"))
  /\ exists didDoc credentials presentation opts unsigned proof signed,
       (Resolve (VDRIRegistry (ctx examples.agent)) (DID request) = Ok didDoc
        \/ ((exists e, Resolve (VDRIRegistry (ctx examples.agent)) (DID request) = Err e)
            /\ GetDID (didStore examples.agent) (DID request) = Ok didDoc))
       /\ parsePresentationRequest examples.agent request didDoc
          = Returns (Ok (credentials, presentation, opts))
       /\ (presentation = Some unsigned
           \/ (presentation = None
               /\ exists c0 others vp0,
                    credentials = c0 :: others
                    /\ verifiable.Credential_Presentation (pkg examples.agent) c0 = Ok vp0
                    /\ verifiable.SetCredentials (pkg examples.agent) vp0 credentials
                       = Ok unsigned))
       /\ signed = verifiable.set_Proofs
                     (verifiable.set_Holder unsigned (did.Doc_ID didDoc))
                     (verifiable.Proofs unsigned ++ [proof])
       /\ addLinkedDataProof examples.agent
            (verifiable.set_Holder unsigned (did.Doc_ID didDoc)) opts
          = (signed, None)
       /\ verifiable.MarshalJSON (pkg examples.agent) signed
          = Ok (list_byte_of_string "did:example:123456")
       /\ verifiable.Holder signed = did.Doc_ID didDoc.
Proof.
  intros request. split; [reflexivity|]. split; [reflexivity|].
  exact (proj1 (holder_always_overwritten examples.agent) request
           (list_byte_of_string "did:example:123456") eq_refl).
Defined.

(** ** JSON objects *)

Lemma lookup_app (key : string) (a b : verifiable.Object) :
  verifiable.lookup key (a ++ b)
  = match verifiable.lookup key a with
    | Some v => Some v
    | None => verifiable.lookup key b
    end.
Proof.
  induction a as [|[k v] a IH]; simpl; [reflexivity|].
  destruct (String.eqb k key); [reflexivity | exact IH].
Qed.

Lemma setMember_same (key : string) (value : verifiable.JSON)
    (members : verifiable.Object) :
  verifiable.lookup key members = Some value ->
  verifiable.setMember key value members = members.
Proof.
  induction members as [|[k v] rest IH]; simpl; [discriminate|].
  destruct (String.eqb k key).
  - intros H. injection H as ->. reflexivity.
  - intros H. now rewrite (IH H).
Qed.

Lemma lookup_setMember (key : string) (value : verifiable.JSON)
    (members : verifiable.Object) :
  verifiable.lookup key (verifiable.setMember key value members) = Some value.
Proof.
  induction members as [|[k v] rest IH]; simpl.
  - now rewrite String.eqb_refl.
  - destruct (String.eqb k key) eqn:E; simpl; rewrite E; [reflexivity | exact IH].
Qed.

Lemma lookup_setMember_other (key other : string) (value : verifiable.JSON)
    (members : verifiable.Object) :
  other <> key ->
  verifiable.lookup key (verifiable.setMember other value members)
  = verifiable.lookup key members.
Proof.
  intros Hne. apply String.eqb_neq in Hne.
  induction members as [|[k v] rest IH]; simpl.
  - now rewrite Hne.
  - destruct (String.eqb k other) eqn:E; simpl.
    + apply String.eqb_eq in E. subst k. now rewrite Hne.
    + now rewrite IH.
Qed.

(** ** Several proofs on one document *)

Lemma verifyProofs_two (c : verifiable.Collaborators)
    (suites : list verifiable.SignatureSuite) (fetcher : verifiable.PublicKeyFetcher)
    (fields : verifiable.Object) (first second : verifiable.Proof) :
  verifiable.verifyProofs c suites fetcher fields [first; second] = Ok tt
  <-> verifiable.verifyProof c suites fetcher fields first = Ok tt
      /\ verifiable.verifyProof c suites fetcher fields second = Ok tt.
Proof.
  cbn [verifiable.verifyProofs]. unfold bind.
  destruct (verifiable.verifyProof c suites fetcher fields first) as [[]|e1];
    destruct (verifiable.verifyProof c suites fetcher fields second) as [[]|e2];
    split; try (intros [H1 H2]); try intros H;
    try discriminate; auto.
Qed.

Lemma lookupString_verificationMethod (c : verifiable.Collaborators)
    (signingCtx : verifiable.LinkedDataProofContext) (member : string * verifiable.JSON) :
  verifiable.lookupString "verificationMethod"
    (verifiable.proofOptions c signingCtx ++ [member])
  = verifiable.ctx_VerificationMethod signingCtx.
Proof.
  reflexivity.
Qed.

(** C5.  For every credential that carries exactly one proof, the proof
    field is that single proof object; when canonicalization and the
    suite's signer succeed, adding a proof returns a credential; and the
    credential any such call returns has the same members, carries two
    proofs with the first-added before the second-added, writes its proof
    field as the two-element list in that order, declares the requested
    verification method in the new proof, and verifies exactly when each
    of the two proofs verifies on its own against the key fetched for its
    own verification method. *)
Theorem multi_proof_accumulation (c : verifiable.Collaborators)
    (credential : verifiable.Credential) (first : verifiable.Proof)
    (signingCtx : verifiable.LinkedDataProofContext)
    (Hone : verifiable.Credential_Proofs credential = [first]) :
  verifiable.proofField (verifiable.Credential_Proofs credential)
  = [("proof", verifiable.JObj first)]
  /\ (forall message signer signature,
         verifiable.canonicalBytes c (verifiable.Credential_fields credential)
           (verifiable.proofOptions c signingCtx) = Ok message ->
         verifiable.suite_signer (verifiable.ctx_Suite signingCtx) = Some signer ->
         verifiable.Sign signer message = Ok signature ->
         exists signed,
           verifiable.Credential_AddLinkedDataProof c credential signingCtx = Ok signed)
  /\ (forall signed,
         verifiable.Credential_AddLinkedDataProof c credential signingCtx = Ok signed ->
         exists second,
           verifiable.Credential_Proofs signed = [first; second]
           /\ verifiable.proofField (verifiable.Credential_Proofs signed)
              = [("proof", verifiable.JArr [verifiable.JObj first; verifiable.JObj second])]
           /\ verifiable.Credential_fields signed = verifiable.Credential_fields credential
           /\ verifiable.lookupString "verificationMethod" second
              = verifiable.ctx_VerificationMethod signingCtx
           /\ forall suites fetcher,
                verifiable.Credential_verify c suites fetcher signed = Ok tt
                <-> verifiable.verifyProof c suites fetcher
                      (verifiable.Credential_fields signed) first = Ok tt
                    /\ verifiable.verifyProof c suites fetcher
                         (verifiable.Credential_fields signed) second = Ok tt).
Proof.
  split; [now rewrite Hone|]. split.
  - intros message signer signature Hcanon Hsigner Hsign.
    unfold verifiable.Credential_AddLinkedDataProof, verifiable.addProof, bind.
    rewrite Hcanon, Hsigner, Hsign. eexists. reflexivity.
  - intros signed.
    unfold verifiable.Credential_AddLinkedDataProof, verifiable.addProof, bind.
    destruct (verifiable.canonicalBytes _ _ _) as [message|]; [|discriminate].
    destruct (verifiable.suite_signer _) as [signer|]; [|discriminate].
    destruct (verifiable.Sign signer message) as [signature|]; [|discriminate].
    intros H. injection H as <-. rewrite Hone.
    eexists. split; [reflexivity|]. split; [reflexivity|]. split; [reflexivity|].
    split; [apply lookupString_verificationMethod|].
    intros suites fetcher. unfold verifiable.Credential_verify.
    cbn [verifiable.Credential_Proofs verifiable.set_Credential_Proofs app].
    apply verifyProofs_two.
Qed.

Lemma multi_proof_accumulation_witness :
  exists signed second,
    verifiable.Credential_AddLinkedDataProof verifiable_test.sampleCollaborators
      verifiable_test.onceSigned
      (verifiable_test.jwsContext (verifiable_test.keyedSigner "ecdsa")
         "did:example:123456#key2") = Ok signed
    /\ verifiable.Credential_Proofs signed = [verifiable_test.firstProof; second]
    /\ verifiable.Credential_verify verifiable_test.sampleCollaborators
         verifiable_test.verifyingSuites verifiable_test.twoKeys signed = Ok tt.
Proof.
  pose proof (multi_proof_accumulation verifiable_test.sampleCollaborators
                verifiable_test.onceSigned verifiable_test.firstProof
                (verifiable_test.jwsContext (verifiable_test.keyedSigner "ecdsa")
                   "did:example:123456#key2") eq_refl) as (_ & Hreturns & Hshape).
  destruct (Hreturns _ _ _ eq_refl eq_refl eq_refl) as [signed Hsigned].
  destruct (Hshape signed Hsigned) as (second & Hproofs & _ & _ & _ & Hverify).
  exists signed, second. split; [exact Hsigned|]. split; [exact Hproofs|].
  apply Hverify.
  unfold verifiable.Credential_AddLinkedDataProof, verifiable.addProof, bind in Hsigned.
  vm_compute in Hsigned. injection Hsigned as <-.
  vm_compute in Hproofs. injection Hproofs as <-.
  split; vm_compute; reflexivity.
Defined.

(** ** Selective disclosure *)

Lemma walk_cons (sub : verifiable.JSON -> verifiable.JSON -> verifiable.JSON)
    (frameMembers : verifiable.Object) (mandatory : list string)
    (k : string) (v : verifiable.JSON) (rest : verifiable.Object) :
  verifiable.walk sub frameMembers mandatory ((k, v) :: rest)
  = match verifiable.frameChild k frameMembers with
    | Some f => (k, sub f v) :: verifiable.walk sub frameMembers mandatory rest
    | None =>
        if andb (verifiable.isExplicit frameMembers)
                (negb (verifiable.memberOf k mandatory))
        then verifiable.walk sub frameMembers mandatory rest
        else (k, sub (verifiable.JObj []) v)
               :: verifiable.walk sub frameMembers mandatory rest
    end.
Proof.
  reflexivity.
Qed.

Lemma lookup_walk (sub : verifiable.JSON -> verifiable.JSON -> verifiable.JSON)
    (frameMembers : verifiable.Object) (mandatory : list string)
    (key : string) (f : verifiable.JSON) (members : verifiable.Object) :
  verifiable.frameChild key frameMembers = Some f ->
  verifiable.lookup key (verifiable.walk sub frameMembers mandatory members)
  = option_map (sub f) (verifiable.lookup key members).
Proof.
  intros Hf. induction members as [|[k v] rest IH]; [reflexivity|].
  rewrite walk_cons. cbn [verifiable.lookup].
  destruct (String.eqb k key) eqn:E.
  - apply String.eqb_eq in E. subst k. rewrite Hf.
    cbn [verifiable.lookup]. now rewrite String.eqb_refl.
  - destruct (verifiable.frameChild k frameMembers).
    + cbn [verifiable.lookup]. now rewrite E.
    + destruct (andb _ _); [exact IH|].
      cbn [verifiable.lookup]. now rewrite E.
Qed.

Lemma lookup_credentialSubject (credential : verifiable.Credential) :
  verifiable.lookup "credentialSubject" (verifiable.Credential_fields credential)
  = Some (verifiable.Subject credential).
Proof.
  unfold verifiable.Credential_fields, verifiable.optionalMember.
  destruct (String.eqb (verifiable.ID credential) ""); reflexivity.
Qed.

Lemma keys_walk_disclosed (sub : verifiable.JSON -> verifiable.JSON -> verifiable.JSON)
    (types : list verifiable.JSON) (subject : verifiable.Object) :
  verifiable.keys
    (verifiable.walk sub (disclosedSubjectFrame types) verifiable.nodeMandatory subject)
  = verifiable.keys (filter isDisclosed subject).
Proof.
  induction subject as [|[k v] rest IH]; [reflexivity|].
  rewrite walk_cons. cbn [filter].
  change (isDisclosed (k, v)) with (verifiable.memberOf k disclosedKeys).
  change (verifiable.isExplicit (disclosedSubjectFrame types)) with true.
  unfold verifiable.keys in *.
  destruct (String.eqb_spec k "@explicit") as [->|H0]; [exact IH|].
  destruct (String.eqb_spec k "type") as [->|H1]; [cbn; now rewrite IH|].
  destruct (String.eqb_spec k "givenName") as [->|H2]; [cbn; now rewrite IH|].
  destruct (String.eqb_spec k "familyName") as [->|H3]; [cbn; now rewrite IH|].
  destruct (String.eqb_spec k "gender") as [->|H4]; [cbn; now rewrite IH|].
  destruct (String.eqb_spec k "id") as [->|H5]; [cbn; now rewrite IH|].
  assert (E : forall key, k <> key ->
                String.eqb key k = false /\ String.eqb k key = false).
  { intros key Hne. split; apply String.eqb_neq; congruence. }
  destruct (E _ H0) as [E0 E0'], (E _ H1) as [E1 E1'], (E _ H2) as [E2 E2'],
    (E _ H3) as [E3 E3'], (E _ H4) as [E4 E4'], (E _ H5) as [E5 E5'].
  unfold verifiable.frameChild, verifiable.memberOf, disclosedSubjectFrame,
    disclosedKeys, verifiable.nodeMandatory.
  cbn [verifiable.lookup existsb].
  rewrite ?E0', ?E0, ?E1, ?E2, ?E3, ?E4, ?E5, ?E1', ?E2', ?E3', ?E4', ?E5'.
  cbn [verifiable.lookup existsb orb andb negb].
  rewrite ?E0', ?E0, ?E1, ?E2, ?E3, ?E4, ?E5, ?E1', ?E2', ?E3', ?E4', ?E5'.
  exact IH.
Qed.

Lemma keys_filter_disclosed (subject : verifiable.Object) (key : string) :
  In key (verifiable.keys (filter isDisclosed subject))
  <-> In key (verifiable.keys subject) /\ In key disclosedKeys.
Proof.
  unfold verifiable.keys. rewrite in_map_iff. split.
  - intros ([k v] & <- & Hin). apply filter_In in Hin. destruct Hin as [Hin Hd].
    split; [apply in_map_iff; now exists (k, v)|].
    unfold isDisclosed, verifiable.memberOf in Hd.
    now apply existsb_eqb_In in Hd.
  - intros [Hin Hd]. apply in_map_iff in Hin. destruct Hin as ([k v] & <- & Hin).
    exists (k, v). split; [reflexivity|]. apply filter_In. split; [exact Hin|].
    unfold isDisclosed, verifiable.memberOf. now apply existsb_eqb_In.
Qed.

(** C6.  Given a credential with one BBS+ proof and a reveal document
    whose [credentialSubject] node is explicit and enumerates the
    subject's type tags, [givenName], [familyName] and [gender]: when
    the canonicalizer, the key fetcher and the proof derivation succeed
    the derivation returns a document; the subject of that document is
    an object whose members are exactly those of [givenName],
    [familyName], [gender], [id] and [type] that the original subject
    has, every other subject field ([birthDate], [lprNumber], [image],
    ...) being absent; and the document has a single proof, of type
    ["BbsBlsSignatureProof2020"], whose [nonce] member is the base64
    encoding of the supplied nonce and which has a [proofValue]
    member.  Nothing is said of the form in which the processor writes
    the retained values back. *)
Theorem selective_disclosure_correct
    (c : verifiable.Collaborators) (processor : verifiable.Processor)
    (bbs : verifiable.BBS)
    (credential : verifiable.Credential) (revealDoc : verifiable.Object)
    (nonce : bytes) (fetcher : verifiable.PublicKeyFetcher)
    (subject : verifiable.Object) (types : list verifiable.JSON)
    (bbsProof : verifiable.Proof)
    (statements revealedStatements : list string)
    (signature derivedValue : bytes) (publicKey : verifiable.PublicKey)
    (Hsubject : verifiable.Subject credential = verifiable.JObj subject)
    (Hframe : verifiable.lookup "credentialSubject" revealDoc
              = Some (verifiable.JObj (disclosedSubjectFrame types)))
    (Hbbs : filter verifiable.isBBSProof (verifiable.Credential_Proofs credential)
            = [bbsProof])
    (Hcanon : verifiable.canonicalize c
                (verifiable.JObj (verifiable.Credential_fields credential))
              = Ok statements)
    (Hrevealed : verifiable.canonicalize c
                   (verifiable.JObj
                      (verifiable.revealDocument processor revealDoc
                         (verifiable.Credential_fields credential)))
                 = Ok revealedStatements)
    (Hsignature : verifiable.storedSignature bbsProof = Ok signature)
    (Hkey : verifiable.fetchKey fetcher
              (verifiable.lookupString "verificationMethod" bbsProof) = Ok publicKey)
    (Hderive : verifiable.DeriveProof bbs statements signature nonce publicKey
                 (verifiable.revealedIndexes statements revealedStatements 0)
               = Ok derivedValue) :
  exists derived derivedSubject proof,
    verifiable.GenerateBBSSelectiveDisclosure c processor bbs credential revealDoc
      nonce fetcher = Ok derived
    /\ verifiable.Document_subject derived = Some (verifiable.JObj derivedSubject)
    /\ (forall key,
           In key (verifiable.keys derivedSubject)
           <-> In key (verifiable.keys subject) /\ In key disclosedKeys)
    /\ verifiable.Document_Proofs derived = [proof]
    /\ verifiable.lookup "type" proof = Some (verifiable.JStr "BbsBlsSignatureProof2020")
    /\ verifiable.lookup "nonce" proof
       = Some (verifiable.JStr (base64.StdEncoding_EncodeToString nonce))
    /\ verifiable.lookup "proofValue" proof
       = Some (verifiable.JStr (base64.StdEncoding_EncodeToString derivedValue)).
Proof.
  eexists. eexists. eexists. split.
  { unfold verifiable.GenerateBBSSelectiveDisclosure.
    rewrite Hbbs. unfold bind at 1. rewrite Hcanon.
    unfold bind at 1. rewrite Hrevealed.
    cbn [verifiable.deriveProofs]. unfold verifiable.deriveProof, bind.
    rewrite Hsignature, Hkey, Hderive. reflexivity. }
  split.
  { unfold verifiable.Document_subject, verifiable.revealDocument.
    cbn [verifiable.Document_fields verifiable.reveal verifiable.frameMembers].
    rewrite (lookup_walk _ _ _ _ (verifiable.JObj (disclosedSubjectFrame types)));
      [|exact Hframe].
    rewrite lookup_credentialSubject, Hsubject.
    cbn [option_map verifiable.reveal verifiable.frameMembers].
    reflexivity. }
  split.
  { intros key. rewrite keys_walk_disclosed. apply keys_filter_disclosed. }
  split; [reflexivity|].
  split.
  { rewrite lookup_setMember_other by discriminate.
    rewrite lookup_setMember_other by discriminate.
    apply lookup_setMember. }
  split.
  { apply lookup_setMember. }
  rewrite lookup_setMember_other by discriminate.
  apply lookup_setMember.
Qed.

Lemma selective_disclosure_correct_witness :
  exists derived derivedSubject proof,
    verifiable.GenerateBBSSelectiveDisclosure verifiable_test.sampleCollaborators
      verifiable_test.sampleProcessor verifiable_test.sampleBBS
      (verifiable_test.residentCard [verifiable_test.bbsProof])
      verifiable_test.revealDoc verifiable_test.nonce
      (verifiable_test.singleKey "bbs" "Bls12381G2Key2020") = Ok derived
    /\ verifiable.Document_subject derived = Some (verifiable.JObj derivedSubject)
    /\ (forall key,
           In key (verifiable.keys derivedSubject)
           <-> In key (verifiable.keys verifiable_test.residentSubject)
               /\ In key disclosedKeys)
    /\ verifiable.Document_Proofs derived = [proof]
    /\ verifiable.lookup "type" proof = Some (verifiable.JStr "BbsBlsSignatureProof2020")
    /\ verifiable.lookup "nonce" proof = Some (verifiable.JStr "c29tZSBub25jZQ==").
Proof.
  destruct (selective_disclosure_correct
              verifiable_test.sampleCollaborators verifiable_test.sampleProcessor
              verifiable_test.sampleBBS
              (verifiable_test.residentCard [verifiable_test.bbsProof])
              verifiable_test.revealDoc verifiable_test.nonce
              (verifiable_test.singleKey "bbs" "Bls12381G2Key2020")
              verifiable_test.residentSubject
              [verifiable.JStr "PermanentResident"; verifiable.JStr "Person"]
              verifiable_test.bbsProof _ _ _ _ _
              eq_refl eq_refl eq_refl eq_refl eq_refl eq_refl eq_refl eq_refl)
    as (derived & derivedSubject & proof & Hderived & Hsubject & Hkeys & Hproofs
        & Htype & Hnonce & _).
  exists derived, derivedSubject, proof.
  split; [exact Hderived|]. split; [exact Hsubject|]. split; [exact Hkeys|].
  split; [exact Hproofs|]. split; [exact Htype | exact Hnonce].
Defined.

(** ** The examples, run on the model *)

Example ed25519_jws_header :
  verifiable.JWSHeader (ed25519signature2018.New None None)
  = "eyJhbGciOiJFZERTQSIsImI2NCI6ZmFsc2UsImNyaXQiOlsiYjY0Il19".
Proof. reflexivity. Qed.

Example hidden_proof_values :
  base64.StdEncoding_EncodeToString (list_byte_of_string "dummy signature value")
  = "ZHVtbXkgc2lnbmF0dXJlIHZhbHVl"
  /\ base64.StdEncoding_EncodeToString (list_byte_of_string "dummy signature proof value")
     = "ZHVtbXkgc2lnbmF0dXJlIHByb29mIHZhbHVl"
  /\ base64.StdEncoding_DecodeString "c29tZSBub25jZQ=="
     = Ok (list_byte_of_string "some nonce").
Proof. repeat split. Qed.

Example corrupt_base64_refused :
  base64.StdEncoding_DecodeString "c29tZSBub25jZQ"
  = Err (errors_New "illegal base64 data")
  /\ base64.StdEncoding_DecodeString "YQ==YQ=="
     = Err (errors_New "illegal base64 data")
  /\ base64.StdEncoding_DecodeString "YQ=garbage!!"
     = Err (errors_New "illegal base64 data")
  /\ base64.RawURLEncoding_DecodeString "c29tZSBub25jZQ"
     = Ok (list_byte_of_string "some nonce")
  /\ base64.RawURLEncoding_DecodeString "c29tZSBub25jZQ=="
     = Err (errors_New "illegal base64 data").
Proof. repeat split. Qed.

Example derived_document_members :
  let derived :=
    verifiable.revealDocument verifiable_test.sampleProcessor verifiable_test.revealDoc
      (verifiable.Credential_fields (verifiable_test.residentCard [])) in
  verifiable.keys derived
  = ["@context"; "id"; "type"; "credentialSubject"; "issuer"; "issuanceDate";
     "identifier"]
  /\ verifiable.lookup "type" derived
     = Some (verifiable.JArr [verifiable.JStr "PermanentResidentCard";
                              verifiable.JStr "VerifiableCredential"])
  /\ verifiable.lookup "credentialSubject" derived
     = Some (verifiable.JObj
               [("id", verifiable.JStr "did:example:b34ca6cd37bbf23");
                ("type", verifiable.JArr [verifiable.JStr "Person";
                                          verifiable.JStr "PermanentResident"]);
                ("givenName", verifiable.JStr "JOHN");
                ("familyName", verifiable.JStr "SMITH");
                ("gender", verifiable.JStr "Male")]).
Proof. repeat split. Qed.

Example generate_presentation_sample :
  GeneratePresentation examples.agent
    (Ok (mkPresentationRequest [] (list_byte_of_string "{}") "did:example:123456"
           (Some (examples.sampleOptions "" "Ed25519Signature2018")) false))
  = Returns (Written (list_byte_of_string "did:example:123456")).
Proof. reflexivity. Qed.

(** * Further properties of the controller *)

(** ** Parsing the presentation request *)

Lemma parseCredentials_Forall2 (o : Command) (skipVerify : bool) (raws : list bytes)
    (vcs : list verifiable.Credential) :
  parseCredentials o skipVerify raws = Ok vcs
  <-> Forall2 (fun raw vc => verifiable.NewCredential (pkg o) raw skipVerify = Ok vc)
              raws vcs.
Proof.
  revert vcs. induction raws as [|raw rest IH]; intros vcs; simpl.
  - split.
    + intros H. injection H as <-. constructor.
    + intros H. inversion H. reflexivity.
  - destruct (verifiable.NewCredential (pkg o) raw skipVerify) as [vc|e] eqn:E.
    + unfold bind. destruct (parseCredentials o skipVerify rest) as [tail|e'] eqn:Er.
      * split.
        -- intros H. injection H as <-. constructor; [exact E | now apply IH].
        -- intros H. inversion H as [|? vc' ? tail' Hhead Htail]; subst.
           rewrite E in Hhead. injection Hhead as <-.
           apply IH in Htail. now injection Htail as <-.
      * split; [discriminate|].
        intros H. inversion H as [|? vc' ? tail' Hhead Htail]; subst.
        apply IH in Htail. discriminate Htail.
    + split; [discriminate|].
      intros H. inversion H as [|? vc' ? tail' Hhead Htail]; subst.
      rewrite E in Hhead. discriminate Hhead.
Qed.

Lemma parseCredentials_first_failure (o : Command) (skipVerify : bool)
    (raws : list bytes) (e : error) :
  parseCredentials o skipVerify raws = Err e ->
  exists parsed raw rest vcs cause,
    raws = parsed ++ raw :: rest
    /\ Forall2 (fun raw vc => verifiable.NewCredential (pkg o) raw skipVerify = Ok vc)
               parsed vcs
    /\ verifiable.NewCredential (pkg o) raw skipVerify = Err cause
    /\ e = Errorf_w "parse credential failed: %w" cause.
Proof.
  induction raws as [|raw rest IH]; simpl; [discriminate|].
  destruct (verifiable.NewCredential (pkg o) raw skipVerify) as [vc|cause] eqn:E.
  - unfold bind. destruct (parseCredentials o skipVerify rest) as [tail|e'];
      [discriminate|].
    intros H. injection H as <-.
    destruct (IH eq_refl) as (parsed & raw' & rest' & vcs & cause & -> & Hall & Hfail & ->).
    exists (raw :: parsed), raw', rest', (vc :: vcs), cause.
    split; [reflexivity|]. split; [now constructor|]. now split.
  - intros H. injection H as <-.
    exists [], raw, rest, [], cause.
    split; [reflexivity|]. split; [constructor|]. now split.
Qed.

(** X1.  [parsePresentationRequest] turns the raw credentials into parsed
    ones one by one and in order: the loop succeeds exactly when every
    raw credential parses, and then returns the parsed credentials
    pairwise with the raw ones; when it fails, the error is the wrapped
    error of the first raw credential that does not parse, all the ones
    before it having parsed. *)
Theorem credentials_parsed_in_order (o : Command) (skipVerify : bool)
    (raws : list bytes) :
  (forall vcs,
      parseCredentials o skipVerify raws = Ok vcs
      <-> Forall2 (fun raw vc => verifiable.NewCredential (pkg o) raw skipVerify = Ok vc)
                  raws vcs)
  /\ (forall e,
         parseCredentials o skipVerify raws = Err e ->
         exists parsed raw rest vcs cause,
           raws = parsed ++ raw :: rest
           /\ Forall2 (fun raw vc =>
                         verifiable.NewCredential (pkg o) raw skipVerify = Ok vc)
                      parsed vcs
           /\ verifiable.NewCredential (pkg o) raw skipVerify = Err cause
           /\ e = Errorf_w "parse credential failed: %w" cause).
Proof.
  split.
  - intros vcs. apply parseCredentials_Forall2.
  - intros e. apply parseCredentials_first_failure.
Qed.

Lemma credentials_parsed_in_order_witness :
  Forall2 (fun raw vc =>
             verifiable.NewCredential (pkg examples.agent) raw true = Ok vc)
          [list_byte_of_string "{}"; list_byte_of_string "{}"]
          [examples.sampleCredential; examples.sampleCredential].
Proof.
  apply (proj1 (credentials_parsed_in_order examples.agent true
                  [list_byte_of_string "{}"; list_byte_of_string "{}"])).
  reflexivity.
Defined.

Lemma prepareOpts_keeps (opts : option ProofOptions) (didDoc : did.Doc) :
  SignatureType (fst (prepareOpts opts didDoc)) = SignatureType (supplied opts)
  /\ Created (fst (prepareOpts opts didDoc)) = Created (supplied opts)
  /\ Domain (fst (prepareOpts opts didDoc)) = Domain (supplied opts)
  /\ Challenge (fst (prepareOpts opts didDoc)) = Challenge (supplied opts)
  /\ proofPurpose (fst (prepareOpts opts didDoc)) = "authentication".
Proof.
  unfold prepareOpts. fold (supplied opts).
  destruct (scanAuthVMs _ _ _) as [vm matched].
  destruct (negb matched); [simpl; auto|].
  destruct (String.eqb _ _); [|simpl; auto].
  destruct (getDefaultVerificationMethod didDoc); simpl; auto.
Qed.

Lemma parsePresentationRequest_parts (o : Command) (request : PresentationRequest)
    (didDoc : did.Doc) (vcs : list verifiable.Credential)
    (p : option verifiable.Presentation) (opts : ProofOptions) :
  parsePresentationRequest o request didDoc = Returns (Ok (vcs, p, opts)) ->
  (exists supplied, request_ProofOptions request = Some supplied
                    /\ SignatureType supplied <> "")
  /\ prepareOpts (request_ProofOptions request) didDoc = (opts, None)
  /\ ((VerifiableCredentials request <> []
       /\ p = None
       /\ parseCredentials o (SkipVerify request) (VerifiableCredentials request) = Ok vcs)
      \/ (VerifiableCredentials request = []
          /\ Presentation request <> []
          /\ vcs = []
          /\ exists vp, p = Some vp
                        /\ verifiable.NewUnverifiedPresentation (pkg o)
                             (Presentation request) = Ok vp)).
Proof.
  unfold parsePresentationRequest, request_SignatureType.
  destruct (andb _ _) eqn:Eempty; [discriminate|].
  destruct (request_ProofOptions request) as [po|] eqn:Epo; [|discriminate].
  intros H. injection H as H.
  destruct (String.eqb (SignatureType po) "") eqn:Est; [discriminate|].
  apply String.eqb_neq in Est.
  split; [now exists po|].
  unfold bind, wrap in H.
  destruct (VerifiableCredentials request) as [|raw raws] eqn:Eraws.
  - cbn [List.length Nat.eqb negb andb] in H, Eempty.
    destruct (verifiable.NewUnverifiedPresentation (pkg o) (Presentation request))
      as [vp|] eqn:Evp; [|discriminate].
    destruct (prepareOpts (Some po) didDoc) as [opts' [e|]] eqn:Eprep; [discriminate|].
    cbn [fst snd] in H. injection H as <- <- <-.
    split; [reflexivity|]. right. split; [reflexivity|].
    split; [|split; [reflexivity | now exists vp]].
    intros Hnil. rewrite Hnil in Eempty. discriminate.
  - cbn [List.length Nat.eqb negb] in H.
    destruct (parseCredentials o (SkipVerify request) (raw :: raws)) as [parsed|] eqn:Ep;
      [|discriminate].
    destruct (prepareOpts (Some po) didDoc) as [opts' [e|]] eqn:Eprep; [discriminate|].
    cbn [fst snd] in H. injection H as <- <- <-.
    split; [reflexivity|]. left. split; [discriminate|]. now split.
Qed.

(** X2.  Whenever [parsePresentationRequest] succeeds, the request
    carried proof options with a non-empty signature type; the options it
    returns keep that signature type and the caller's created, domain and
    challenge and have the proof purpose [authentication]; and exactly
    one of the two inputs was used: either the request had raw
    credentials, as many credentials as raw ones come back and no
    presentation, or it had none, the presentation comes back parsed and
    the credential list is empty. *)
Theorem parsed_request_shape (o : Command) (request : PresentationRequest)
    (didDoc : did.Doc) (vcs : list verifiable.Credential)
    (p : option verifiable.Presentation) (opts : ProofOptions)
    (Hparsed : parsePresentationRequest o request didDoc = Returns (Ok (vcs, p, opts))) :
  (exists supplied,
      request_ProofOptions request = Some supplied
      /\ SignatureType opts = SignatureType supplied
      /\ SignatureType opts <> ""
      /\ Created opts = Created supplied
      /\ Domain opts = Domain supplied
      /\ Challenge opts = Challenge supplied)
  /\ proofPurpose opts = "authentication"
  /\ ((VerifiableCredentials request <> []
       /\ p = None
       /\ List.length vcs = List.length (VerifiableCredentials request))
      \/ (VerifiableCredentials request = []
          /\ vcs = []
          /\ exists vp, p = Some vp
                        /\ verifiable.NewUnverifiedPresentation (pkg o)
                             (Presentation request) = Ok vp)).
Proof.
  destruct (parsePresentationRequest_parts _ _ _ _ _ _ Hparsed)
    as ((po & Epo & Hst) & Hprep & Hshape).
  pose proof (prepareOpts_keeps (request_ProofOptions request) didDoc) as Hkeep.
  rewrite Hprep, Epo in Hkeep. cbn [fst supplied] in Hkeep.
  destruct Hkeep as (K1 & K2 & K3 & K4 & K5).
  split.
  - exists po. repeat split; auto. now rewrite K1.
  - split; [exact K5|].
    destruct Hshape as [(Hraws & Hp & Hvcs)|(Hraws & _ & Hvcs & Hvp)].
    + left. split; [exact Hraws|]. split; [exact Hp|].
      apply parseCredentials_Forall2 in Hvcs.
      symmetry. exact (Forall2_length Hvcs).
    + right. auto.
Qed.

Lemma parsed_request_shape_witness :
  let request :=
    mkPresentationRequest [list_byte_of_string "{}"] [] "did:example:123456"
      (Some (examples.sampleOptions "did:example:123456#key1" "Ed25519Signature2018"))
      false in
  let opts :=
    mkProofOptions "did:example:123456#key1" "Ed25519Signature2018"
      (Some 1262373804%Z) "example.com" "challenge-1" "authentication" in
  parsePresentationRequest examples.agent request examples.twoMethods
  = Returns (Ok ([examples.sampleCredential], None, opts))
  /\ proofPurpose opts = "authentication".
Proof.
  intros request opts. split; [reflexivity|].
  exact (proj1 (proj2 (parsed_request_shape examples.agent request examples.twoMethods
                         [examples.sampleCredential] None opts eq_refl))).
Defined.

(** ** Generating a presentation *)

Lemma createAndSignPresentation_returns (o : Command)
    (credentials : list verifiable.Credential) (vp : option verifiable.Presentation)
    (holder : string) (opts : ProofOptions) :
  (vp = None -> credentials <> []) ->
  exists r, createAndSignPresentation o credentials vp holder opts = Returns r.
Proof.
  intros Hin. unfold createAndSignPresentation.
  destruct vp as [vp|]; [eexists; reflexivity|].
  destruct credentials as [|c0 others]; [now elim (Hin eq_refl)|].
  eexists; reflexivity.
Qed.

(** X3.  For a decoded request that carries proof options,
    [GeneratePresentation] always returns: the index [credentials[0]] in
    [createAndSignPresentation] is in range on every path, because a
    request that parses without a presentation has parsed at least one
    credential. *)
Theorem generate_presentation_index_in_range (o : Command)
    (request : PresentationRequest) (supplied : ProofOptions)
    (Hopts : request_ProofOptions request = Some supplied) :
  exists out, GeneratePresentation o (Ok request) = Returns out.
Proof.
  unfold GeneratePresentation.
  destruct (match Resolve (VDRIRegistry (ctx o)) (DID request) with
            | Ok didDoc => Ok didDoc
            | Err _ => GetDID (didStore o) (DID request)
            end) as [didDoc|e]; [|eexists; reflexivity].
  destruct (parsePresentationRequest o request didDoc)
    as [[[[vcs p] opts]|e]|msg] eqn:Eparse.
  - unfold generatePresentation.
    destruct (createAndSignPresentation_returns o vcs p (did.Doc_ID didDoc) opts)
      as [r Hr].
    + intros ->.
      destruct (parsePresentationRequest_parts _ _ _ _ _ _ Eparse)
        as (_ & _ & [(Hraws & _ & Hvcs)|(_ & _ & _ & vp & Hp & _)]);
        [|discriminate Hp].
      apply parseCredentials_Forall2 in Hvcs. intros ->.
      inversion Hvcs as [Hnil|]. now elim Hraws.
    + rewrite Hr. destruct r; eexists; reflexivity.
  - eexists; reflexivity.
  - unfold parsePresentationRequest, request_SignatureType in Eparse.
    rewrite Hopts in Eparse. destruct (andb _ _); discriminate Eparse.
Qed.

Lemma generate_presentation_index_in_range_witness :
  exists out,
    GeneratePresentation examples.agent
      (Ok (mkPresentationRequest [list_byte_of_string "{}"] [] "did:example:123456"
             (Some (examples.sampleOptions "" "Ed25519Signature2018")) true))
    = Returns out.
Proof.
  exact (generate_presentation_index_in_range examples.agent
           (mkPresentationRequest [list_byte_of_string "{}"] [] "did:example:123456"
              (Some (examples.sampleOptions "" "Ed25519Signature2018")) true)
           (examples.sampleOptions "" "Ed25519Signature2018") eq_refl).
Defined.

(** X4.  Raw credentials take precedence over a presentation: when the
    request carries at least one raw credential, the presentation bytes
    are never parsed, so replacing them by any other bytes changes
    neither the parsed request nor what [GeneratePresentation] does. *)
Theorem credentials_take_precedence (o : Command) (request : PresentationRequest)
    (presentation : bytes)
    (Hraws : VerifiableCredentials request <> []) :
  (forall didDoc,
      parsePresentationRequest o (with_Presentation request presentation) didDoc
      = parsePresentationRequest o request didDoc)
  /\ GeneratePresentation o (Ok (with_Presentation request presentation))
     = GeneratePresentation o (Ok request).
Proof.
  assert (Hparse : forall didDoc,
             parsePresentationRequest o (with_Presentation request presentation) didDoc
             = parsePresentationRequest o request didDoc).
  { intros didDoc. unfold parsePresentationRequest, request_SignatureType, with_Presentation.
    cbn [VerifiableCredentials Presentation request_ProofOptions SkipVerify].
    destruct (VerifiableCredentials request) as [|raw raws]; [now elim Hraws|].
    reflexivity. }
  split; [exact Hparse|].
  unfold GeneratePresentation.
  change (DID (with_Presentation request presentation)) with (DID request).
  destruct (match Resolve (VDRIRegistry (ctx o)) (DID request) with
            | Ok didDoc => Ok didDoc
            | Err _ => GetDID (didStore o) (DID request)
            end) as [didDoc|e]; [|reflexivity].
  now rewrite Hparse.
Qed.

Lemma credentials_take_precedence_witness :
  let request :=
    mkPresentationRequest [list_byte_of_string "{}"] [] "did:example:123456"
      (Some (examples.sampleOptions "" "Ed25519Signature2018")) true in
  GeneratePresentation examples.agent
    (Ok (with_Presentation request (list_byte_of_string "not a presentation")))
  = GeneratePresentation examples.agent (Ok request).
Proof.
  intros request.
  apply (proj2 (credentials_take_precedence examples.agent request
                  (list_byte_of_string "not a presentation")
                  ltac:(discriminate))).
Defined.

Lemma parseCredentials_pkg (o1 o2 : Command) (skipVerify : bool) (raws : list bytes) :
  pkg o1 = pkg o2 ->
  parseCredentials o1 skipVerify raws = parseCredentials o2 skipVerify raws.
Proof.
  intros Hpkg. induction raws as [|raw rest IH]; simpl; [reflexivity|].
  now rewrite Hpkg, IH.
Qed.

Lemma parsePresentationRequest_pkg (o1 o2 : Command) (request : PresentationRequest)
    (didDoc : did.Doc) :
  pkg o1 = pkg o2 ->
  parsePresentationRequest o1 request didDoc = parsePresentationRequest o2 request didDoc.
Proof.
  intros Hpkg. unfold parsePresentationRequest.
  now rewrite (parseCredentials_pkg o1 o2 _ _ Hpkg), Hpkg.
Qed.

(** X5.  The identity document comes from the registry first and from the
    local store only when the registry fails: when the registry resolves
    the DID, [GeneratePresentation] does the same whatever the local
    store is; when both fail, it returns the generate-presentation error
    code with the error of the local store, the registry's error being
    dropped. *)
Theorem registry_first_store_second (o : Command) (request : PresentationRequest) :
  (forall didDoc store,
      Resolve (VDRIRegistry (ctx o)) (DID request) = Ok didDoc ->
      GeneratePresentation (with_didStore o store) (Ok request)
      = GeneratePresentation o (Ok request))
  /\ (forall registryError storeError,
         Resolve (VDRIRegistry (ctx o)) (DID request) = Err registryError ->
         GetDID (didStore o) (DID request) = Err storeError ->
         GeneratePresentation o (Ok request)
         = Returns
             (NewValidationError GeneratePresentationErrorCode
                (Errorf_w "generate vp - failed to get did doc from store or vdri : %w"
                   storeError))).
Proof.
  split.
  - intros didDoc store Hres. unfold GeneratePresentation.
    change (VDRIRegistry (ctx (with_didStore o store))) with (VDRIRegistry (ctx o)).
    rewrite Hres.
    rewrite (parsePresentationRequest_pkg (with_didStore o store) o) by reflexivity.
    reflexivity.
  - intros registryError storeError Hres Hget. unfold GeneratePresentation.
    now rewrite Hres, Hget.
Qed.

Lemma registry_first_store_second_witness :
  GeneratePresentation
    (with_didStore examples.agent (mkDIDStore (fun _ => Err (errors_New "no store"))))
    (Ok (mkPresentationRequest [] (list_byte_of_string "{}") "did:example:123456"
           (Some (examples.sampleOptions "" "Ed25519Signature2018")) false))
  = GeneratePresentation examples.agent
      (Ok (mkPresentationRequest [] (list_byte_of_string "{}") "did:example:123456"
             (Some (examples.sampleOptions "" "Ed25519Signature2018")) false))
  /\ GeneratePresentation examples.agent
       (Ok (mkPresentationRequest [] (list_byte_of_string "{}") "did:example:unknown"
              (Some (examples.sampleOptions "" "Ed25519Signature2018")) false))
     = Returns
         (NewValidationError GeneratePresentationErrorCode
            (Errorf_w "generate vp - failed to get did doc from store or vdri : %w"
               (errors_New "did not found"))).
Proof.
  split.
  - apply (proj1 (registry_first_store_second examples.agent _) examples.twoMethods).
    reflexivity.
  - apply (proj2 (registry_first_store_second examples.agent _)
             (errors_New "did not found")); reflexivity.
Defined.

(** X6.  The error codes of [GeneratePresentation]: a request that did
    not decode gets the invalid-request code; a DID that cannot be
    resolved and a request that cannot be parsed get the
    generate-presentation code; and a failure to build or sign the
    presentation is reported under the code of the by-id handler, with
    the cause wrapped as "prepare vp".  No other code is returned. *)
Theorem generate_presentation_error_codes (o : Command)
    (req : result PresentationRequest) (code : Code) (e : error)
    (Hfailed : GeneratePresentation o req = Returns (NewValidationError code e)) :
  (code = InvalidRequestErrorCode
   /\ exists cause, req = Err cause /\ e = Errorf_w "request decode : %w" cause)
  \/ (code = GeneratePresentationErrorCode
      /\ exists request cause,
           req = Ok request
           /\ (e = Errorf_w "generate vp - failed to get did doc from store or vdri : %w"
                     cause
               \/ e = Errorf_w "generate vp - parse presentation request: %w" cause))
  \/ (code = GeneratePresentationByIDErrorCode
      /\ exists request didDoc vcs p opts cause,
           req = Ok request
           /\ parsePresentationRequest o request didDoc = Returns (Ok (vcs, p, opts))
           /\ createAndSignPresentation o vcs p (did.Doc_ID didDoc) opts
              = Returns (Err cause)
           /\ e = Errorf_w "prepare vp: %w" cause).
Proof.
  unfold GeneratePresentation in Hfailed.
  destruct req as [request|cause].
  - destruct (match Resolve (VDRIRegistry (ctx o)) (DID request) with
              | Ok didDoc => Ok didDoc
              | Err _ => GetDID (didStore o) (DID request)
              end) as [didDoc|cause].
    + destruct (parsePresentationRequest o request didDoc)
        as [[[[vcs p] opts]|cause]|msg] eqn:Eparse; [| |discriminate].
      * unfold generatePresentation in Hfailed.
        destruct (createAndSignPresentation o vcs p (did.Doc_ID didDoc) opts)
          as [[out|cause]|msg] eqn:Esign; try discriminate.
        injection Hfailed as <- <-. right. right. split; [reflexivity|].
        exists request, didDoc, vcs, p, opts, cause. auto.
      * injection Hfailed as <- <-. right. left. split; [reflexivity|].
        exists request, cause. auto.
    + injection Hfailed as <- <-. right. left. split; [reflexivity|].
      exists request, cause. auto.
  - injection Hfailed as <- <-. left. split; [reflexivity|]. now exists cause.
Qed.

Lemma generate_presentation_error_codes_witness :
  exists request didDoc vcs p opts cause,
    Ok (mkPresentationRequest [] (list_byte_of_string "{}") "did:example:123456"
          (Some (examples.sampleOptions "" "NotASuite")) false) = Ok request
    /\ parsePresentationRequest examples.agent request didDoc = Returns (Ok (vcs, p, opts))
    /\ createAndSignPresentation examples.agent vcs p (did.Doc_ID didDoc) opts
       = Returns (Err cause)
    /\ Errorf_w "prepare vp: %w"
         (Errorf_w "failed to sign vp: %w" (errUnsupportedSuite "NotASuite"))
       = Errorf_w "prepare vp: %w" cause.
Proof.
  destruct (generate_presentation_error_codes examples.agent
              (Ok (mkPresentationRequest [] (list_byte_of_string "{}")
                     "did:example:123456"
                     (Some (examples.sampleOptions "" "NotASuite")) false))
              GeneratePresentationByIDErrorCode
              (Errorf_w "prepare vp: %w"
                 (Errorf_w "failed to sign vp: %w" (errUnsupportedSuite "NotASuite")))
              eq_refl)
    as [(Hcode & _)|[(Hcode & _)|(_ & H)]]; [discriminate Hcode | discriminate Hcode |].
  exact H.
Defined.

(** ** What a written presentation implies *)

Lemma newKMSSigner_Ok (keyManager : KeyManager) (c : Crypto) (creator : string)
    (s : kmsSigner) :
  newKMSSigner keyManager c creator = Ok s ->
  exists didID keyID,
    creator = (didID ++ String "#" keyID)%string
    /\ strings.Count didID "#" = 0 /\ strings.Count keyID "#" = 0
    /\ Get keyManager keyID = Ok (keyHandle s)
    /\ crypto s = c.
Proof.
  intros Hs.
  destruct (Nat.eq_dec (strings.Count creator "#") 1) as [Hone|Hnot].
  - destruct (Count_one_decompose _ _ Hone) as (didID & keyID & -> & Hdid & Hkey).
    rewrite (newKMSSigner_fragment _ _ _ _ Hdid Hkey) in Hs. unfold bind in Hs.
    destruct (Get keyManager keyID) as [handle|] eqn:Eget; [|discriminate].
    injection Hs as <-. exists didID, keyID. cbn [keyHandle crypto]. auto.
  - rewrite (newKMSSigner_wrong_id _ _ _ Hnot) in Hs. discriminate.
Qed.

Lemma addLinkedDataProof_success_requires (o : Command)
    (vp signed : verifiable.Presentation) (opts : ProofOptions) :
  addLinkedDataProof o vp opts = (signed, None) ->
  supportedSuite (SignatureType opts)
  /\ exists didID keyID handle,
       VerificationMethod opts = (didID ++ String "#" keyID)%string
       /\ strings.Count didID "#" = 0 /\ strings.Count keyID "#" = 0
       /\ Get (KMS (ctx o)) keyID = Ok handle.
Proof.
  unfold addLinkedDataProof, supportedSuite.
  destruct (newKMSSigner _ _ _) as [s|] eqn:Es; [|discriminate].
  destruct (newKMSSigner_Ok _ _ _ _ Es) as (didID & keyID & Hvm & Hdid & Hkey & Hget & _).
  destruct (String.eqb (SignatureType opts) Ed25519Signature2018) eqn:Eed.
  - intros _. apply String.eqb_eq in Eed. split; [now left|].
    now exists didID, keyID, (keyHandle s).
  - destruct (String.eqb (SignatureType opts) JSONWebSignature2020) eqn:Ejws;
      [|discriminate].
    intros _. apply String.eqb_eq in Ejws. split; [now right|].
    now exists didID, keyID, (keyHandle s).
Qed.

Lemma addLinkedDataProof_signer (o : Command)
    (vp signed : verifiable.Presentation) (opts : ProofOptions) :
  addLinkedDataProof o vp opts = (signed, None) ->
  supportedSuite (SignatureType opts)
  /\ exists didID keyID handle,
       VerificationMethod opts = (didID ++ String "#" keyID)%string
       /\ strings.Count didID "#" = 0 /\ strings.Count keyID "#" = 0
       /\ Get (KMS (ctx o)) keyID = Ok handle
       /\ newKMSSigner (KMS (ctx o)) (provider_Crypto (ctx o)) (VerificationMethod opts)
          = Ok (mkKMSSigner handle (provider_Crypto (ctx o))).
Proof.
  intros Hadd.
  destruct (addLinkedDataProof_success_requires _ _ _ _ Hadd) as (Hsuite & _).
  split; [exact Hsuite|].
  unfold addLinkedDataProof in Hadd.
  destruct (newKMSSigner _ _ _) as [s|] eqn:Es; [|discriminate].
  destruct (newKMSSigner_Ok _ _ _ _ Es) as (didID & keyID & Hvm & Hdid & Hkey & Hget & Hc).
  exists didID, keyID, (keyHandle s).
  destruct s as [handle c]. cbn [keyHandle crypto] in *. subst c. auto 10.
Qed.

(** X7.  A presentation is written only for a supported suite and a key
    the key manager holds.  Whenever [GeneratePresentation] writes a
    presentation, the request carried proof options whose signature type
    is ["Ed25519Signature2018"] or ["JsonWebSignature2020"]; the options
    the signing call was made with are the ones [prepareOpts] returned
    for those proof options and the identity document resolved for the
    request's DID (from the registry, or from the local store when the
    registry fails); their verification method, which is the requested
    one whenever the request named one, is [didID#keyID], and the signer
    that signed is the KMS signer of the handle the key manager returned
    for [keyID].  Whenever [GeneratePresentationByID] writes one, the
    same holds of the request's signature type and of the default
    verification method of the identity document the local store holds
    for the request's DID, with which the presentation built from the
    stored credential was signed. *)
Theorem written_needs_suite_and_key (o : Command) (out : bytes) :
  (forall request,
      GeneratePresentation o (Ok request) = Returns (Written out) ->
      exists supplied didDoc credentials presentation opts unsigned signed
             didID keyID handle,
        request_ProofOptions request = Some supplied
        /\ supportedSuite (SignatureType supplied)
        /\ (Resolve (VDRIRegistry (ctx o)) (DID request) = Ok didDoc
            \/ ((exists e, Resolve (VDRIRegistry (ctx o)) (DID request) = Err e)
                /\ GetDID (didStore o) (DID request) = Ok didDoc))
        /\ parsePresentationRequest o request didDoc
           = Returns (Ok (credentials, presentation, opts))
        /\ prepareOpts (Some supplied) didDoc = (opts, None)
        /\ SignatureType opts = SignatureType supplied
        /\ (VerificationMethod supplied <> "" ->
            VerificationMethod opts = VerificationMethod supplied)
        /\ VerificationMethod opts = (didID ++ String "#" keyID)%string
        /\ strings.Count didID "#" = 0 /\ strings.Count keyID "#" = 0
        /\ Get (KMS (ctx o)) keyID = Ok handle
        /\ newKMSSigner (KMS (ctx o)) (provider_Crypto (ctx o))
             (VerificationMethod opts)
           = Ok (mkKMSSigner handle (provider_Crypto (ctx o)))
        /\ addLinkedDataProof o
             (verifiable.set_Holder unsigned (did.Doc_ID didDoc)) opts
           = (signed, None)
        /\ verifiable.MarshalJSON (pkg o) signed = Ok out)
  /\ (forall request,
         GeneratePresentationByID o (Ok request) = Written out ->
         byID_ID request <> "" /\ byID_DID request <> ""
         /\ supportedSuite (byID_SignatureType request)
         /\ exists vc didDoc pk vp signed didID keyID handle,
              GetCredential (verifiableStore o) (byID_ID request) = Ok vc
              /\ GetDID (didStore o) (byID_DID request) = Ok didDoc
              /\ getDefaultVerificationMethod didDoc = Ok pk
              /\ pk = (didID ++ String "#" keyID)%string
              /\ strings.Count didID "#" = 0 /\ strings.Count keyID "#" = 0
              /\ Get (KMS (ctx o)) keyID = Ok handle
              /\ newKMSSigner (KMS (ctx o)) (provider_Crypto (ctx o)) pk
                 = Ok (mkKMSSigner handle (provider_Crypto (ctx o)))
              /\ verifiable.Credential_Presentation (pkg o) vc = Ok vp
              /\ addLinkedDataProof o vp
                   (mkProofOptions pk (byID_SignatureType request) None "" "" "")
                 = (signed, None)
              /\ verifiable.MarshalJSON (pkg o) signed = Ok out).
Proof.
  split.
  - intros request Hwritten.
    destruct (GeneratePresentation_written _ _ _ Hwritten)
      as (didDoc & credentials & presentation & opts & Hdoc & Hparse & Hsign).
    destruct (createAndSignPresentation_written _ _ _ _ _ _ Hsign)
      as (unsigned & proof & _ & Hadd & Hout).
    destruct (parsePresentationRequest_parts _ _ _ _ _ _ Hparse)
      as ((supplied & Esupplied & _) & Hprep & _).
    destruct (addLinkedDataProof_signer _ _ _ _ Hadd)
      as (Hsuite & didID & keyID & handle & Hvm & Hdid & Hkey & Hget & Hsigner).
    pose proof (prepareOpts_keeps (request_ProofOptions request) didDoc) as Hkeep.
    rewrite Hprep, Esupplied in Hkeep. cbn [fst variants.supplied] in Hkeep.
    destruct Hkeep as (Hst & _).
    rewrite Esupplied in Hprep. rewrite Hst in Hsuite.
    exists supplied, didDoc, credentials, presentation, opts, unsigned.
    eexists. exists didID, keyID, handle.
    split; [exact Esupplied|]. split; [exact Hsuite|]. split; [exact Hdoc|].
    split; [exact Hparse|]. split; [exact Hprep|]. split; [exact Hst|].
    split.
    { intros Hreq. rewrite (prepareOpts_requested supplied didDoc Hreq) in Hprep.
      injection Hprep as <- _. reflexivity. }
    split; [exact Hvm|]. split; [exact Hdid|]. split; [exact Hkey|].
    split; [exact Hget|]. split; [exact Hsigner|]. split; [exact Hadd | exact Hout].
  - intros request. unfold GeneratePresentationByID.
    destruct (String.eqb (byID_ID request) "") eqn:Eid; [discriminate|].
    destruct (String.eqb (byID_DID request) "") eqn:Edid; [discriminate|].
    apply String.eqb_neq in Eid, Edid.
    destruct (GetCredential (verifiableStore o) (byID_ID request)) as [vc|] eqn:Evc;
      [|discriminate].
    destruct (GetDID (didStore o) (byID_DID request)) as [didDoc|] eqn:Edoc;
      [|discriminate].
    unfold generatePresentationByID, createAndSignPresentationByID, bind, wrap.
    destruct (getDefaultVerificationMethod didDoc) as [pk|] eqn:Epk; [|discriminate].
    destruct (verifiable.Credential_Presentation (pkg o) vc) as [vp|] eqn:Evp;
      [|discriminate].
    destruct (addLinkedDataProof o vp _) as [signed [e|]] eqn:Eadd; [discriminate|].
    destruct (verifiable.MarshalJSON (pkg o) signed) as [written|] eqn:Eout;
      [|discriminate].
    intros H. injection H as ->.
    destruct (addLinkedDataProof_signer _ _ _ _ Eadd)
      as (Hsuite & didID & keyID & handle & Hvm & Hdid & Hkey & Hget & Hsigner).
    cbn [VerificationMethod SignatureType] in Hvm, Hsuite, Hsigner.
    split; [exact Eid|]. split; [exact Edid|]. split; [exact Hsuite|].
    exists vc, didDoc, pk, vp, signed, didID, keyID, handle.
    split; [reflexivity|]. split; [reflexivity|]. split; [exact Epk|].
    split; [exact Hvm|]. split; [exact Hdid|]. split; [exact Hkey|].
    split; [exact Hget|]. split; [exact Hsigner|]. split; [exact Evp|].
    split; [exact Eadd | exact Eout].
Qed.

Lemma written_needs_suite_and_key_witness :
  let request :=
    mkPresentationRequest [] (list_byte_of_string "{}") "did:example:123456"
      (Some (examples.sampleOptions "" "Ed25519Signature2018")) false in
  GeneratePresentation examples.agent (Ok request)
  = Returns (Written (list_byte_of_string "did:example:123456"))
  /\ exists supplied didDoc credentials presentation opts unsigned signed
            didID keyID handle,
       request_ProofOptions request = Some supplied
       /\ supportedSuite (SignatureType supplied)
       /\ (Resolve (VDRIRegistry (ctx examples.agent)) (DID request) = Ok didDoc
           \/ ((exists e, Resolve (VDRIRegistry (ctx examples.agent)) (DID request) = Err e)
               /\ GetDID (didStore examples.agent) (DID request) = Ok didDoc))
       /\ parsePresentationRequest examples.agent request didDoc
          = Returns (Ok (credentials, presentation, opts))
       /\ prepareOpts (Some supplied) didDoc = (opts, None)
       /\ SignatureType opts = SignatureType supplied
       /\ (VerificationMethod supplied <> "" ->
           VerificationMethod opts = VerificationMethod supplied)
       /\ VerificationMethod opts = (didID ++ String "#" keyID)%string
       /\ strings.Count didID "#" = 0 /\ strings.Count keyID "#" = 0
       /\ Get (KMS (ctx examples.agent)) keyID = Ok handle
       /\ newKMSSigner (KMS (ctx examples.agent)) (provider_Crypto (ctx examples.agent))
            (VerificationMethod opts)
          = Ok (mkKMSSigner handle (provider_Crypto (ctx examples.agent)))
       /\ addLinkedDataProof examples.agent
            (verifiable.set_Holder unsigned (did.Doc_ID didDoc)) opts
          = (signed, None)
       /\ verifiable.MarshalJSON (pkg examples.agent) signed
          = Ok (list_byte_of_string "did:example:123456").
Proof.
  intros request. split; [reflexivity|].
  exact (proj1 (written_needs_suite_and_key examples.agent
                  (list_byte_of_string "did:example:123456"))
           request eq_refl).
Defined.

(** ** Generating a presentation from a stored credential *)

(** X8.  [GeneratePresentationByID] checks the credential id first and
    the DID second, before it reads any store: an empty id is refused
    with the invalid-request code and the credential-id message whatever
    the DID is, and an empty DID with a non-empty id is refused with the
    DID message.  The handler never consults the registry: with any
    other registry in its place it does exactly the same. *)
Theorem by_id_validation_order (o : Command) (request : PresentationRequestByID) :
  (byID_ID request = "" ->
   GeneratePresentationByID o (Ok request)
   = NewValidationError InvalidRequestErrorCode
       (errors_New "credential id is mandatory"))
  /\ (byID_ID request <> "" -> byID_DID request = "" ->
      GeneratePresentationByID o (Ok request)
      = NewValidationError InvalidRequestErrorCode (errors_New "did is mandatory"))
  /\ (forall registry req,
         GeneratePresentationByID (with_registry o registry) req
         = GeneratePresentationByID o req).
Proof.
  split; [|split].
  - intros Hid. unfold GeneratePresentationByID. now rewrite Hid.
  - intros Hid Hdid. unfold GeneratePresentationByID.
    apply String.eqb_neq in Hid. now rewrite Hid, Hdid.
  - intros registry req. reflexivity.
Qed.

Lemma by_id_validation_order_witness :
  GeneratePresentationByID examples.agent
    (Ok (mkPresentationRequestByID "" "" "Ed25519Signature2018"))
  = NewValidationError InvalidRequestErrorCode (errors_New "credential id is mandatory")
  /\ GeneratePresentationByID examples.agent
       (Ok (mkPresentationRequestByID "http://example.edu/credentials/1872" ""
              "Ed25519Signature2018"))
     = NewValidationError InvalidRequestErrorCode (errors_New "did is mandatory").
Proof.
  split.
  - apply (proj1 (by_id_validation_order examples.agent
                    (mkPresentationRequestByID "" "" "Ed25519Signature2018"))).
    reflexivity.
  - apply (proj1 (proj2 (by_id_validation_order examples.agent
                           (mkPresentationRequestByID
                              "http://example.edu/credentials/1872" ""
                              "Ed25519Signature2018"))));
      [discriminate | reflexivity].
Defined.

(** X9.  [GeneratePresentationByID] resolves the verification method
    before it builds the presentation: for a stored identity document
    with neither a flat public key nor an authentication method it
    returns the by-id error code with the public-key-not-found error,
    whatever the credential and the signature type are and whatever the
    package would have built from the credential. *)
Theorem by_id_needs_a_key (o : Command) (request : PresentationRequestByID)
    (vc : verifiable.Credential) (didDoc : did.Doc)
    (Hid : byID_ID request <> "") (Hdid : byID_DID request <> "")
    (Hvc : GetCredential (verifiableStore o) (byID_ID request) = Ok vc)
    (Hdoc : GetDID (didStore o) (byID_DID request) = Ok didDoc)
    (Hkeys : did.Doc_PublicKey didDoc = [])
    (Hauth : did.Doc_Authentication didDoc = []) :
  GeneratePresentationByID o (Ok request)
  = NewValidationError GeneratePresentationByIDErrorCode
      (Errorf_w "prepare vp by id: %w" errNoPublicKey).
Proof.
  unfold GeneratePresentationByID.
  apply String.eqb_neq in Hid, Hdid. rewrite Hid, Hdid, Hvc, Hdoc.
  unfold generatePresentationByID, createAndSignPresentationByID,
    getDefaultVerificationMethod.
  now rewrite Hkeys, Hauth.
Qed.

Lemma by_id_needs_a_key_witness :
  GeneratePresentationByID
    (with_didStore examples.agent (mkDIDStore (fun _ => Ok examples.noKeys)))
    (Ok (mkPresentationRequestByID "http://example.edu/credentials/1872"
           "did:example:123456" "Ed25519Signature2018"))
  = NewValidationError GeneratePresentationByIDErrorCode
      (Errorf_w "prepare vp by id: %w" errNoPublicKey).
Proof.
  apply (by_id_needs_a_key
           (with_didStore examples.agent (mkDIDStore (fun _ => Ok examples.noKeys)))
           (mkPresentationRequestByID "http://example.edu/credentials/1872"
              "did:example:123456" "Ed25519Signature2018")
           examples.sampleCredential examples.noKeys);
    try discriminate; reflexivity.
Defined.

(** ** More on the resolution of the verification method *)

Lemma resolved_Ok_returns (r : ProofOptions * option error) (vm : string) :
  resolved r = Ok vm -> snd r = None.
Proof.
  destruct r as [opts [e|]]; [discriminate | reflexivity].
Qed.

Lemma prepareOpts_no_authentication (opts : option ProofOptions) (didDoc : did.Doc) :
  VerificationMethod (supplied opts) = "" ->
  did.Doc_Authentication didDoc = [] ->
  snd (prepareOpts opts didDoc)
  = match getDefaultVerificationMethod didDoc with
    | Ok _ => None
    | Err e => Some (Errorf_w "failed to get default verification method: %w" e)
    end.
Proof.
  intros Hreq Hauth. unfold prepareOpts.
  destruct opts as [[vm st cr dom ch pp]|]; cbn in Hreq; subst;
    cbn [did.VerificationMethods]; rewrite Hauth; cbn;
    destruct (getDefaultVerificationMethod didDoc); reflexivity.
Qed.

(** X10.  With no requested verification method (no options at all, or
    options whose verification method is empty), [prepareOpts] succeeds
    exactly when the identity document has a flat public key or an
    authentication method; when it has neither, the call fails with the
    wrapped public-key-not-found error of the fallback, never with the
    no-matching-verification-method error. *)
Theorem unrequested_method_needs_a_key (opts : option ProofOptions) (didDoc : did.Doc)
    (Hreq : VerificationMethod (supplied opts) = "") :
  (snd (prepareOpts opts didDoc) = None
   <-> did.Doc_PublicKey didDoc <> [] \/ did.Doc_Authentication didDoc <> [])
  /\ (did.Doc_PublicKey didDoc = [] -> did.Doc_Authentication didDoc = [] ->
      snd (prepareOpts opts didDoc)
      = Some (Errorf_w "failed to get default verification method: %w" errNoPublicKey)).
Proof.
  assert (Hnone : did.Doc_PublicKey didDoc = [] -> did.Doc_Authentication didDoc = [] ->
                  snd (prepareOpts opts didDoc)
                  = Some (Errorf_w "failed to get default verification method: %w"
                            errNoPublicKey)).
  { intros Hkeys Hauth. rewrite (prepareOpts_no_authentication _ _ Hreq Hauth).
    unfold getDefaultVerificationMethod. now rewrite Hkeys, Hauth. }
  split; [|exact Hnone].
  destruct (did.Doc_Authentication didDoc) as [|vm0 others] eqn:Eauth.
  - destruct (did.Doc_PublicKey didDoc) as [|k0 keys] eqn:Ekeys.
    + rewrite (Hnone eq_refl eq_refl). split; [discriminate|].
      intros [H|H]; now elim H.
    + split; [intros _; left; discriminate|]. intros _.
      rewrite (prepareOpts_no_authentication _ _ Hreq Eauth).
      now rewrite (getDefaultVerificationMethod_chosen didDoc k0 keys Ekeys).
  - split; [intros _; right; discriminate|]. intros _.
    assert (Hsup : match opts with
                   | Some o => VerificationMethod o = ""
                   | None => True
                   end).
    { destruct opts; [exact Hreq | exact I]. }
    pose proof (prepareOpts_unrequested opts didDoc vm0 others Hsup Eauth) as Hres.
    destruct (String.eqb (did.PublicKey_ID (did.VM_PublicKey vm0)) "").
    + unfold getDefaultVerificationMethod in Hres. rewrite Eauth in Hres.
      destruct (did.Doc_PublicKey didDoc) as [|k0 keys].
      * exact (resolved_Ok_returns _ _ Hres).
      * cbn [wrap] in Hres.
        destruct (negb (isDID _)) in Hres; exact (resolved_Ok_returns _ _ Hres).
    + exact (resolved_Ok_returns _ _ Hres).
Qed.

Lemma unrequested_method_needs_a_key_witness :
  snd (prepareOpts None examples.authOnly) = None
  /\ snd (prepareOpts None examples.noKeys)
     = Some (Errorf_w "failed to get default verification method: %w" errNoPublicKey).
Proof.
  split.
  - apply (proj1 (unrequested_method_needs_a_key None examples.authOnly eq_refl)).
    right. discriminate.
  - apply (proj2 (unrequested_method_needs_a_key None examples.noKeys eq_refl));
      reflexivity.
Defined.

(** X11.  Preparing prepared options: when [prepareOpts] has succeeded
    and the method it resolved is the non-empty public-key id of a
    listed authentication method, a second call on its result succeeds
    and returns the very same options; when the resolved method is
    non-empty but not listed (it came from the fallback), a second call
    on the result fails with the no-matching-verification-method
    error. *)
Theorem prepareOpts_again (opts : option ProofOptions) (didDoc : did.Doc)
    (prepared : ProofOptions)
    (Hprepared : prepareOpts opts didDoc = (prepared, None))
    (Hresolved : VerificationMethod prepared <> "") :
  (In (VerificationMethod prepared) (authIDs didDoc) ->
   prepareOpts (Some prepared) didDoc = (prepared, None))
  /\ (~ In (VerificationMethod prepared) (authIDs didDoc) ->
      prepareOpts (Some prepared) didDoc = (prepared, Some errNoMatchingVM)).
Proof.
  pose proof (prepareOpts_keeps opts didDoc) as (_ & _ & _ & _ & Hpurpose).
  rewrite Hprepared in Hpurpose. cbn [fst] in Hpurpose.
  assert (Hsame : set_proofPurpose prepared "authentication" = prepared).
  { destruct prepared as [vm st cr dom ch pp]. cbn in Hpurpose. now subst pp. }
  rewrite (prepareOpts_requested prepared didDoc Hresolved), Hsame.
  split.
  - intros Hin. apply existsb_eqb_In in Hin. now rewrite Hin.
  - intros Hnin.
    destruct (existsb (String.eqb (VerificationMethod prepared)) (authIDs didDoc)) eqn:E;
      [|reflexivity].
    apply existsb_eqb_In in E. contradiction.
Qed.

Lemma prepareOpts_again_witness :
  let prepared :=
    mkProofOptions "did:example:123456#key1" "" None "" "" "authentication" in
  prepareOpts (Some prepared) examples.twoMethods = (prepared, None).
Proof.
  intros prepared.
  apply (proj1 (prepareOpts_again None examples.twoMethods prepared eq_refl
                  ltac:(discriminate))).
  simpl. auto.
Defined.

Lemma prefix_append (p a b : string) :
  String.prefix p a = true -> String.prefix p (a ++ b) = true.
Proof.
  revert a. induction p as [|c p IH]; intros a;
    [intros _; destruct (a ++ b)%string; reflexivity|].
  destruct a as [|c' a]; simpl; [discriminate|].
  destruct (Ascii.ascii_dec c c'); [apply IH | discriminate].
Qed.

(** X12.  For an identity document whose own id is a DID and whose flat
    public-key list is non-empty, [getDefaultVerificationMethod] always
    succeeds and what it returns is a DID: either the chosen key id,
    which already starts with [did:], or the document id followed by the
    chosen key id. *)
Theorem default_method_is_a_did (didDoc : did.Doc)
    (Hkeys : did.Doc_PublicKey didDoc <> [])
    (Hid : isDID (did.Doc_ID didDoc) = true) :
  exists vm,
    getDefaultVerificationMethod didDoc = Ok vm
    /\ isDID vm = true
    /\ exists k, In k (did.Doc_PublicKey didDoc)
                 /\ (vm = did.PublicKey_ID k
                     \/ vm = (did.Doc_ID didDoc ++ did.PublicKey_ID k)%string).
Proof.
  destruct (did.Doc_PublicKey didDoc) as [|k0 keys] eqn:Ekeys; [now elim Hkeys|].
  rewrite (getDefaultVerificationMethod_chosen didDoc k0 keys Ekeys).
  exists (qualified didDoc (chosenDefaultKey k0 keys)).
  split; [reflexivity|].
  assert (Hin : In (chosenDefaultKey k0 keys) (k0 :: keys)).
  { unfold chosenDefaultKey.
    destruct (find isEd25519Key (k0 :: keys)) as [k|] eqn:Efind; [|now left].
    destruct (String.eqb (did.PublicKey_ID k) ""); [now left|].
    now apply find_some in Efind. }
  unfold qualified.
  destruct (isDID (did.PublicKey_ID (chosenDefaultKey k0 keys))) eqn:Ek.
  - split; [exact Ek|]. exists (chosenDefaultKey k0 keys). auto.
  - split.
    + unfold isDID, strings.HasPrefix in *. now apply prefix_append.
    + exists (chosenDefaultKey k0 keys). auto.
Qed.

Lemma default_method_is_a_did_witness :
  exists vm,
    getDefaultVerificationMethod examples.relativeKeyID = Ok vm
    /\ isDID vm = true
    /\ exists k, In k (did.Doc_PublicKey examples.relativeKeyID)
                 /\ (vm = did.PublicKey_ID k
                     \/ vm = (did.Doc_ID examples.relativeKeyID
                              ++ did.PublicKey_ID k)%string).
Proof.
  apply default_method_is_a_did; [discriminate | reflexivity].
Defined.

(** ** The KMS signer *)

(** X13.  A signer built for [didID#keyID] signs with the key the key
    manager holds under [keyID]: when the key manager returns a handle
    for [keyID], [newKMSSigner] succeeds and the signer's [Sign] is the
    crypto service's [Sign] with that handle, errors included; when the
    key manager returns an error, [newKMSSigner] returns that error
    unchanged. *)
Theorem kms_signer_signs_with_the_key (keyManager : KeyManager) (c : Crypto)
    (didID keyID : string)
    (Hdid : strings.Count didID "#" = 0)
    (Hkey : strings.Count keyID "#" = 0) :
  (forall handle,
      Get keyManager keyID = Ok handle ->
      exists s,
        newKMSSigner keyManager c (didID ++ String "#" keyID) = Ok s
        /\ forall data, kmsSigner_Sign s data = Crypto_Sign c data handle)
  /\ (forall e,
         Get keyManager keyID = Err e ->
         newKMSSigner keyManager c (didID ++ String "#" keyID) = Err e).
Proof.
  rewrite (newKMSSigner_fragment keyManager c didID keyID Hdid Hkey).
  split.
  - intros handle Hget. rewrite Hget. eexists. split; reflexivity.
  - intros e Hget. now rewrite Hget.
Qed.

Lemma kms_signer_signs_with_the_key_witness :
  exists s,
    newKMSSigner (KMS (ctx examples.agent)) (provider_Crypto (ctx examples.agent))
      "did:example:123456#key1" = Ok s
    /\ forall data,
         kmsSigner_Sign s data
         = Crypto_Sign (provider_Crypto (ctx examples.agent)) data 1.
Proof.
  apply (proj1 (kms_signer_signs_with_the_key
                  (KMS (ctx examples.agent)) (provider_Crypto (ctx examples.agent))
                  "did:example:123456" "key1" eq_refl eq_refl)).
  reflexivity.
Defined.

(** ** Hiding and restoring a proof value *)

Lemma setMember_twice (key : string) (v v' : verifiable.JSON)
    (members : verifiable.Object) :
  verifiable.setMember key v (verifiable.setMember key v' members)
  = verifiable.setMember key v members.
Proof.
  induction members as [|[k w] rest IH]; simpl.
  - now rewrite String.eqb_refl.
  - destruct (String.eqb k key) eqn:E; simpl; rewrite E; [reflexivity|].
    now rewrite IH.
Qed.

(** X14.  [hideProofValue] puts the base64 encoding of the dummy value
    under [proofValue] and touches no other member; on a proof that has
    a [proofValue] it returns that value, and [restoreProofValue] with
    the returned value gives back the proof exactly as it was.  On a
    proof without a [proofValue] it returns nil, and restoring leaves a
    null [proofValue] member behind instead of removing the member. *)
Theorem hide_then_restore (proof : verifiable.Proof) (dummyValue : string) :
  let hidden := fst (example_helpers.hideProofValue proof dummyValue) in
  let old := snd (example_helpers.hideProofValue proof dummyValue) in
  verifiable.lookup "proofValue" hidden
  = Some (verifiable.JStr
            (base64.StdEncoding_EncodeToString (list_byte_of_string dummyValue)))
  /\ (forall key, key <> "proofValue" ->
                  verifiable.lookup key hidden = verifiable.lookup key proof)
  /\ (forall value,
         verifiable.lookup "proofValue" proof = Some value ->
         old = value /\ example_helpers.restoreProofValue hidden old = proof)
  /\ (verifiable.lookup "proofValue" proof = None ->
      old = verifiable.JNull
      /\ verifiable.lookup "proofValue" (example_helpers.restoreProofValue hidden old)
         = Some verifiable.JNull).
Proof.
  intros hidden old.
  unfold example_helpers.hideProofValue, example_helpers.restoreProofValue,
    example_helpers.index in *. cbn [fst snd] in *.
  split; [apply lookup_setMember|].
  split.
  { intros key Hkey. apply lookup_setMember_other. congruence. }
  split.
  - intros value Hvalue. subst old hidden. rewrite Hvalue. split; [reflexivity|].
    rewrite setMember_twice. now apply setMember_same.
  - intros Hnone. subst old hidden. rewrite Hnone. split; [reflexivity|].
    apply lookup_setMember.
Qed.

Lemma hide_then_restore_witness :
  snd (example_helpers.hideProofValue verifiable_test.bbsProof "dummy signature value")
  = example_helpers.index verifiable_test.bbsProof "proofValue"
  /\ example_helpers.restoreProofValue
       (fst (example_helpers.hideProofValue verifiable_test.bbsProof
               "dummy signature value"))
       (snd (example_helpers.hideProofValue verifiable_test.bbsProof
               "dummy signature value"))
     = verifiable_test.bbsProof.
Proof.
  split; [reflexivity|].
  eapply (proj1 (proj2 (proj2 (hide_then_restore verifiable_test.bbsProof
                                 "dummy signature value")))).
  reflexivity.
Defined.

(** ** Saving to the store *)

(** X15.  The saving handlers guard the store.  [SaveCredential] with an
    empty name fails with the save-credential code and the
    name-is-mandatory message without parsing the credential or touching
    the store; whenever it writes its response, the name was non-empty,
    the credential parsed, and the store saved that credential under
    that name without an error; and whenever the request did not decode,
    the name was empty or the credential did not parse, the store is in
    the state it was in.  [SavePresentation] does the same with its own
    code and message. *)
Theorem save_handlers_guard_the_store {St : Type} (store : handlers.Storage St)
    (parsers : handlers.Parsers) (s : St) :
  (forall request,
      handlers.CredentialExt_Name request = "" ->
      handlers.SaveCredential store parsers s (Ok request)
      = (s, handlers.Failed SaveCredentialErrorCode
              (errors_New "credential name is mandatory")))
  /\ (forall req s',
         handlers.SaveCredential store parsers s req = (s', handlers.WroteNil) ->
         exists request vc,
           req = Ok request
           /\ handlers.CredentialExt_Name request <> ""
           /\ handlers.NewUnverifiedCredential parsers
                (list_byte_of_string (handlers.VerifiableCredential request)) = Ok vc
           /\ handlers.store_SaveCredential store s
                (handlers.CredentialExt_Name request) vc = (s', None))
  /\ (forall req,
         match req with
         | Err _ => True
         | Ok request =>
             handlers.CredentialExt_Name request = ""
             \/ exists e, handlers.NewUnverifiedCredential parsers
                            (list_byte_of_string (handlers.VerifiableCredential request))
                          = Err e
         end ->
         fst (handlers.SaveCredential store parsers s req) = s
         /\ snd (handlers.SaveCredential store parsers s req) <> handlers.WroteNil)
  /\ (forall request,
         handlers.PresentationExt_Name request = "" ->
         handlers.SavePresentation store parsers s (Ok request)
         = (s, handlers.Failed SavePresentationErrorCode
                 (errors_New "presentation name is mandatory")))
  /\ (forall req s',
         handlers.SavePresentation store parsers s req = (s', handlers.WroteNil) ->
         exists request vp,
           req = Ok request
           /\ handlers.PresentationExt_Name request <> ""
           /\ handlers.NewPresentation parsers (handlers.VerifiablePresentation request)
              = Ok vp
           /\ handlers.store_SavePresentation store s
                (handlers.PresentationExt_Name request) vp = (s', None))
  /\ (forall req,
         match req with
         | Err _ => True
         | Ok request =>
             handlers.PresentationExt_Name request = ""
             \/ exists e, handlers.NewPresentation parsers
                            (handlers.VerifiablePresentation request) = Err e
         end ->
         fst (handlers.SavePresentation store parsers s req) = s
         /\ snd (handlers.SavePresentation store parsers s req) <> handlers.WroteNil).
Proof.
  repeat apply conj.
  - intros request Hname. unfold handlers.SaveCredential. now rewrite Hname.
  - intros [request|e] s'; unfold handlers.SaveCredential; [|discriminate].
    destruct (String.eqb (handlers.CredentialExt_Name request) "") eqn:Ename;
      [discriminate|].
    destruct (handlers.NewUnverifiedCredential parsers _) as [vc|] eqn:Evc;
      [|discriminate].
    destruct (handlers.store_SaveCredential store s _ vc) as [s1 [e|]] eqn:Esave;
      [discriminate|].
    intros H. injection H as <-. apply String.eqb_neq in Ename.
    now exists request, vc.
  - intros [request|e]; unfold handlers.SaveCredential; cbn [fst snd].
    + intros [Hname|[e He]].
      * rewrite Hname. cbn. split; [reflexivity | discriminate].
      * destruct (String.eqb _ ""); [cbn; split; [reflexivity | discriminate]|].
        rewrite He. cbn. split; [reflexivity | discriminate].
    + intros _. split; [reflexivity | discriminate].
  - intros request Hname. unfold handlers.SavePresentation. now rewrite Hname.
  - intros [request|e] s'; unfold handlers.SavePresentation; [|discriminate].
    destruct (String.eqb (handlers.PresentationExt_Name request) "") eqn:Ename;
      [discriminate|].
    destruct (handlers.NewPresentation parsers _) as [vp|] eqn:Evp; [|discriminate].
    destruct (handlers.store_SavePresentation store s _ vp) as [s1 [e|]] eqn:Esave;
      [discriminate|].
    intros H. injection H as <-. apply String.eqb_neq in Ename.
    now exists request, vp.
  - intros [request|e]; unfold handlers.SavePresentation; cbn [fst snd].
    + intros [Hname|[e He]].
      * rewrite Hname. cbn. split; [reflexivity | discriminate].
      * destruct (String.eqb _ ""); [cbn; split; [reflexivity | discriminate]|].
        rewrite He. cbn. split; [reflexivity | discriminate].
    + intros _. split; [reflexivity | discriminate].
Qed.

Lemma save_handlers_guard_the_store_witness :
  handlers.SaveCredential handlers.listStore handlers.sampleParsers ["older"]
    (Ok (handlers.mkCredentialExt "{}" ""))
  = (["older"], handlers.Failed SaveCredentialErrorCode
                  (errors_New "credential name is mandatory"))
  /\ exists request vc,
       Ok (handlers.mkCredentialExt "{}" "degree") = Ok request
       /\ handlers.CredentialExt_Name request <> ""
       /\ handlers.NewUnverifiedCredential handlers.sampleParsers
            (list_byte_of_string (handlers.VerifiableCredential request)) = Ok vc
       /\ handlers.store_SaveCredential handlers.listStore ["older"]
            (handlers.CredentialExt_Name request) vc = (["degree"; "older"], None).
Proof.
  destruct (save_handlers_guard_the_store handlers.listStore handlers.sampleParsers
              ["older"]) as (Hempty & Hwrote & _).
  split.
  - apply Hempty. reflexivity.
  - apply (Hwrote (Ok (handlers.mkCredentialExt "{}" "degree"))). reflexivity.
Defined.
